(** * ej2_despliegue_rh.py: the deployment script of the HR application

    A shallow embedding of [DespliegueRH] and [main].  The script is a
    straight line of calls to the cloud provider wrapped in
    [try]/[except]; what it does is decided by which call raises what.
    The embedding therefore keeps

    - the provider as a function from the calls made so far and the
      call at hand to a reply (a response, or an exception raised);
    - one trace of events, calls and printed lines in the order in which
      they happen;
    - Python's exceptions as values, with [try]/[except] as a combinator
      that may decline an exception and let it propagate. *)

From stdpp Require Import base strings list gmap pretty.
From Stdlib Require Import Sorted.

Open Scope string_scope.
Open Scope list_scope.
Open Scope Z_scope.

(** ** Python values *)

(** A configuration value.  The defaults hold strings and one integer; a
    configuration file may put any JSON value under a key.  The script
    only formats these values into f-strings, compares the region with a
    string literal and hands them to the provider, so any value that is
    neither a string nor an integer is kept by the text [str()] gives
    for it. *)
Inductive value : Type :=
| VStr (s : string)
| VInt (n : Z)
| VOther (repr : string).

(** [f"{v}"] *)
Definition py_str (v : value) : string :=
  match v with
  | VStr s => s
  | VInt n => pretty n
  | VOther r => r
  end.

(** [v == 'literal']: a string equals only the same string. *)
Definition eq_str (v : value) (lit : string) : bool :=
  match v with
  | VStr s => String.eqb s lit
  | _ => false
  end.

(** [s * n] on strings *)
Fixpoint py_mul (s : string) (n : nat) : string :=
  match n with
  | O => ""
  | S k => s +:+ py_mul s k
  end.

(** The newline character, written [\n] in the source. *)
Definition nl : string := String (Ascii.ascii_of_nat 10) "".

(** ** Exceptions *)

Inductive exn : Type :=
| ClientError (code text : string)   (* botocore: e.response['Error']['Code'], str(e) *)
| JSONDecodeError (text : string)
| KeyError (key : string)
| IndexError
| OtherError (text : string)         (* any other subclass of Exception *)
| KeyboardInterrupt
| SystemExit (status : Z).

(** [isinstance(e, Exception)]: [KeyboardInterrupt] and [SystemExit]
    derive from [BaseException] only. *)
Definition es_Exception (e : exn) : bool :=
  match e with
  | KeyboardInterrupt | SystemExit _ => false
  | _ => true
  end.

(** [str(e)] *)
Definition str_exn (e : exn) : string :=
  match e with
  | ClientError _ text => text
  | JSONDecodeError text => text
  | KeyError k => "'" +:+ k +:+ "'"
  | IndexError => "list index out of range"
  | OtherError text => text
  | KeyboardInterrupt => ""
  | SystemExit n => pretty n
  end.

Inductive result (A : Type) : Type :=
| Ret (a : A)
| Raise (e : exn).
Arguments Ret {A} a.
Arguments Raise {A} e.

(** ** The provider's interface *)

Record permiso : Type := {
  IpProtocol : string;
  FromPort : Z;
  ToPort : Z;
  CidrIp : string;
  Description : string
}.

Definition tags : Type := list (string * value).

(** The calls the script makes, with the arguments it passes.
    [boto3_client] is the construction of a client in [__init__];
    [wait_instance_running] is [get_waiter('instance_running').wait]. *)
Inductive llamada : Type :=
| boto3_client (service : string) (region_name : value)
| create_security_group (GroupName Descr : string) (Tags : tags)
| authorize_security_group_ingress (GroupId : string) (IpPermissions : list permiso)
| describe_security_groups (GroupNames : list string)
| create_bucket (Bucket : string) (LocationConstraint : option value)
| put_bucket_encryption (Bucket SSEAlgorithm : string)
| put_bucket_versioning (Bucket Status : string)
| put_public_access_block (Bucket : string)
    (BlockPublicAcls IgnorePublicAcls BlockPublicPolicy RestrictPublicBuckets : bool)
| put_bucket_tagging (Bucket : string) (TagSet : tags)
| run_instances (ImageId : value) (MinCount MaxCount : Z) (InstanceType : value)
    (SecurityGroupIds : list string) (IamInstanceProfile UserData : string) (Tags : tags)
| wait_instance_running (InstanceIds : list string)
| create_db_instance (DBInstanceIdentifier : string) (AllocatedStorage DBInstanceClass : value)
    (Engine EngineVersion MasterUsername : string) (MasterUserPassword : option string)
    (DBName : string) (PubliclyAccessible : bool) (BackupRetentionPeriod : Z)
    (StorageEncrypted : bool) (KmsKeyId : string) (VpcSecurityGroupIds : list string)
    (Tags : tags).

(** What the script reads from a response. *)
Inductive respuesta : Type :=
| RNada
| RGroupId (GroupId : string)
| RSecurityGroups (GroupIds : list string)
| RInstances (InstanceIds : list string).

(** ** Events and the state of a run *)

Inductive canal : Type := stdout | stderr.

Inductive evento : Type :=
| Call (c : llamada)
| Print (f : canal) (texto : string).

(** The calls of a trace, oldest first. *)
Fixpoint llamadas (t : list evento) : list llamada :=
  match t with
  | [] => []
  | Call c :: t' => c :: llamadas t'
  | Print _ _ :: t' => llamadas t'
  end.

(** [recursos_creados] is the dict local to [desplegar]; it is kept in
    the state so that it can be inspected when a step raises. *)
Record mundo : Type := {
  traza : list evento;
  recursos_creados : list (string * string)
}.

Definition mundo_inicial : mundo := {| traza := []; recursos_creados := [] |}.

(** What [json.load] returns, as [dict.update] sees it: a value it
    accepts, which is a JSON object (or an array of key/value pairs,
    which [update] takes as well), given by its pairs in order; or a
    value it rejects with a [TypeError] or a [ValueError], such as a
    number. *)
Inductive documento : Type :=
| Pares (items : list (string * value))
| NoActualizable (texto : string).

(** What a configuration file holds, as [open] and [json.load] see it. *)
Inductive contenido : Type :=
| Ilegible (texto : string)                (* open() raises OSError *)
| Malformado (texto : string)              (* json.load raises JSONDecodeError *)
| Json (user_config : documento).

(** Everything outside the script: the process environment, the files,
    the clock read when the bucket is named, and the provider.
    [nube s h c] is the reply to the call [c] after the calls [h]: a
    response, or the exception the call raises, which may be a
    [ClientError], another error of the client library, or the
    [KeyboardInterrupt] of an operator who interrupts the script while
    it waits for the provider. *)
Record sistema : Type := {
  environ : gmap string string;
  archivos : gmap string contenido;
  reloj : Z;
  nube : list llamada -> llamada -> result respuesta
}.

(** ** The monad: state and exceptions *)

Definition M (A : Type) : Type := mundo -> result A * mundo.

#[global] Instance M_ret : MRet M := fun A a w => (Ret a, w).
#[global] Instance M_bind : MBind M := fun A B k m w =>
  match m w with
  | (Ret a, w') => k a w'
  | (Raise e, w') => (Raise e, w')
  end.

Definition raise {A : Type} (e : exn) : M A := fun w => (Raise e, w).

(** [try: m except ...: h]: [h e] is the body of the first clause that
    matches [e], or [None] when no clause does and [e] propagates. *)
Definition try_except {A : Type} (m : M A) (h : exn -> option (M A)) : M A := fun w =>
  match m w with
  | (Ret a, w') => (Ret a, w')
  | (Raise e, w') =>
      match h e with
      | Some k => k w'
      | None => (Raise e, w')
      end
  end.

Definition emitir (ev : evento) (w : mundo) : mundo :=
  {| traza := traza w ++ [ev]; recursos_creados := recursos_creados w |}.

Definition print (texto : string) : M unit := fun w => (Ret tt, emitir (Print stdout texto) w).
Definition eprint (texto : string) : M unit := fun w => (Ret tt, emitir (Print stderr texto) w).

(** One call to the provider: the reply depends on the calls made so
    far; the call is recorded whether it returns or raises. *)
Definition llamar (s : sistema) (c : llamada) : M respuesta := fun w =>
  (nube s (llamadas (traza w)) c, emitir (Call c) w).

(** [for x in l: f(x)] *)
Fixpoint para_cada {A : Type} (l : list A) (f : A -> M unit) : M unit :=
  match l with
  | [] => mret tt
  | x :: l' => f x;; para_cada l' f
  end.

(** [d[k]] on the configuration dict *)
Definition item (d : gmap string value) (k : string) : M value :=
  match d !! k with
  | Some v => mret v
  | None => raise (KeyError k)
  end.

(** [d.update(items)]: later pairs win. *)
Definition update (d : gmap string value) (items : list (string * value)) : gmap string value :=
  fold_left (fun acc kv => <[kv.1 := kv.2]> acc) items d.

(** [d[k] = v] on an insertion-ordered dict *)
Fixpoint dict_set (d : list (string * string)) (k v : string) : list (string * string) :=
  match d with
  | [] => [(k, v)]
  | (k', v') :: d' => if String.eqb k' k then (k, v) :: d' else (k', v') :: dict_set d' k v
  end.

(** [response['GroupId']] *)
Definition get_GroupId (r : respuesta) : M string :=
  match r with
  | RGroupId g => mret g
  | _ => raise (KeyError "GroupId")
  end.

(** [response['SecurityGroups'][0]['GroupId']] *)
Definition get_first_SecurityGroup (r : respuesta) : M string :=
  match r with
  | RSecurityGroups (g :: _) => mret g
  | RSecurityGroups [] => raise IndexError
  | _ => raise (KeyError "SecurityGroups")
  end.

(** [response['Instances'][0]['InstanceId']] *)
Definition get_first_Instance (r : respuesta) : M string :=
  match r with
  | RInstances (i :: _) => mret i
  | RInstances [] => raise IndexError
  | _ => raise (KeyError "Instances")
  end.

(** ** class DespliegueRH *)

Record DespliegueRH : Type := { config : gmap string value }.

Definition config_default : gmap string value :=
  list_to_map [
    ("region", VStr "us-east-1");
    ("ami_id", VStr "ami-06b21ccaeff8cd686");
    ("instance_type", VStr "t2.micro");
    ("db_instance_class", VStr "db.t3.micro");
    ("db_allocated_storage", VInt 20);
    ("app_name", VStr "app-rh-devops");
    ("environment", VStr "production")
  ].

Definition variables_requeridas : list (string * string) := [
  ("RDS_ADMIN_PASSWORD", "Contraseña del administrador de RDS");
  ("AWS_ACCESS_KEY_ID", "AWS Access Key ID");
  ("AWS_SECRET_ACCESS_KEY", "AWS Secret Access Key")
].

(** The double quote, which the bootstrap script contains. *)
Definition dq : string := String (Ascii.ascii_of_nat 34) "".

(** A triple-quoted text: every line ends in a newline. *)
Definition lineas (l : list string) : string :=
  fold_right (fun x acc => x +:+ nl +:+ acc) "" l.

Definition user_data : string := lineas [
  "#!/bin/bash";
  "# Actualizar sistema";
  "yum update -y";
  "";
  "# Instalar dependencias";
  "yum install -y httpd mysql php php-mysqlnd";
  "";
  "# Configurar HTTPS (requiere certificado SSL)";
  "# En producción, usar certificados de AWS Certificate Manager";
  "";
  "# Configurar firewall";
  "systemctl start firewalld";
  "systemctl enable firewalld";
  "firewall-cmd --permanent --add-service=https";
  "firewall-cmd --permanent --add-service=http";
  "firewall-cmd --reload";
  "";
  "# Iniciar servicios";
  "systemctl start httpd";
  "systemctl enable httpd";
  "";
  "# Crear página de prueba";
  "echo " +:+ dq +:+ "<!DOCTYPE html>";
  "<html>";
  "<head>";
  "    <title>Aplicación de Recursos Humanos</title>";
  "    <meta charset='UTF-8'>";
  "</head>";
  "<body>";
  "    <h1>Aplicación de Recursos Humanos - Desplegada</h1>";
  "    <p>Esta aplicación maneja información sensible de empleados.</p>";
  "    <p>Medidas de seguridad implementadas:</p>";
  "    <ul>";
  "        <li>Encriptación en reposo</li>";
  "        <li>Encriptación en tránsito (HTTPS)</li>";
  "        <li>Security Groups restrictivos</li>";
  "        <li>Backups encriptados en S3</li>";
  "    </ul>";
  "</body>";
  "</html>" +:+ dq +:+ " > /var/www/html/index.html";
  "";
  "# Configurar permisos";
  "chmod 644 /var/www/html/index.html";
  "chown apache:apache /var/www/html/index.html"
].

(** The two ingress rules of [crear_security_group]. *)
Definition reglas_entrada : list permiso := [
  {| IpProtocol := "tcp"; FromPort := 443; ToPort := 443;
     CidrIp := "0.0.0.0/0"; Description := "HTTPS desde internet" |};
  {| IpProtocol := "tcp"; FromPort := 22; ToPort := 22;
     CidrIp := "0.0.0.0/0"; Description := "SSH para administración" |}
].

(** The requests, as the methods build them. *)

Definition peticion_security_group (sg_name description : string) (environment : value) : llamada :=
  create_security_group sg_name description
    [("Name", VStr sg_name);
     ("Environment", environment);
     ("Application", VStr "Recursos Humanos")].

Definition peticion_tagging (bucket_name : string) (environment : value) : llamada :=
  put_bucket_tagging bucket_name
    [("Name", VStr bucket_name);
     ("Environment", environment);
     ("Application", VStr "Recursos Humanos");
     ("Purpose", VStr "Backups")].

Definition peticion_instancia (ami_id instance_type app_name environment : value)
    (sg_id : string) : llamada :=
  run_instances ami_id 1 1 instance_type [sg_id] "LabInstanceProfile" user_data
    [("Name", VStr (py_str app_name +:+ "-web"));
     ("Environment", environment);
     ("Application", VStr "Recursos Humanos")].

Definition peticion_base_datos (db_instance_id : string)
    (db_allocated_storage db_instance_class : value) (db_password : option string)
    (environment : value) : llamada :=
  create_db_instance db_instance_id db_allocated_storage db_instance_class
    "mysql" "8.0" "admin" db_password "rh_database" false 7 true "alias/aws/rds" []
    [("Name", VStr db_instance_id);
     ("Environment", environment);
     ("Application", VStr "Recursos Humanos");
     ("ContainsSensitiveData", VStr "true")].

Section Programa.

Variable s : sistema.

(** [with open(config_file, 'r') as f: user_config = json.load(f)] *)
Definition json_load (config_file : string) : M documento :=
  match archivos s !! config_file with
  | Some (Ilegible texto) => raise (OtherError texto)
  | Some (Malformado texto) => raise (JSONDecodeError texto)
  | Some (Json user_config) => mret user_config
  | None => raise (OtherError "No such file or directory")
  end.

(** [config_default.update(user_config)], returning the updated dict *)
Definition dict_update (d : gmap string value) (user_config : documento) : M (gmap string value) :=
  match user_config with
  | Pares items => mret (update d items)
  | NoActualizable texto => raise (OtherError texto)
  end.

(** [config_file and os.path.exists(config_file)] *)
Definition hay_archivo (config_file : option string) : option string :=
  match config_file with
  | Some ruta =>
      if String.eqb ruta "" then None
      else if bool_decide (is_Some (archivos s !! ruta)) then Some ruta else None
  | None => None
  end.

Definition _cargar_configuracion (config_file : option string) : M (gmap string value) :=
  match hay_archivo config_file with
  | Some ruta =>
      try_except
        (user_config ← json_load ruta;
         dict_update config_default user_config)
        (fun e =>
           match e with
           | JSONDecodeError _ =>
               Some (eprint ("Error: Archivo de configuración inválido: " +:+ str_exn e);;
                     raise (SystemExit 1))
           | _ => None
           end)
  | None => mret config_default
  end.

(** [not os.environ.get(var)]: unset, or set to the empty string *)
Definition falta (var : string) : bool :=
  match environ s !! var with
  | Some v => String.eqb v ""
  | None => true
  end.

(** The loop that fills [faltantes]. *)
Fixpoint recoger (vars : list (string * string)) (faltantes : list string) : list string :=
  match vars with
  | [] => faltantes
  | (var, descripcion) :: vars' =>
      recoger vars'
        (if falta var then faltantes ++ [var +:+ " (" +:+ descripcion +:+ ")"] else faltantes)
  end.

Definition _validar_variables_entorno : M unit :=
  let faltantes := recoger variables_requeridas [] in
  match faltantes with
  | [] => mret tt
  | _ =>
      eprint "Error: Las siguientes variables de entorno deben estar definidas:";;
      para_cada faltantes (fun var => eprint ("  - " +:+ var));;
      eprint (nl +:+ "Ejemplo:");;
      eprint "  export RDS_ADMIN_PASSWORD='tu_password_seguro'";;
      raise (SystemExit 1)
  end.

Definition __init__ (config_file : option string) : M DespliegueRH :=
  cfg ← _cargar_configuracion config_file;
  _validar_variables_entorno;;
  region ← item cfg "region";
  llamar s (boto3_client "ec2" region);;
  llamar s (boto3_client "rds" region);;
  llamar s (boto3_client "s3" region);;
  llamar s (boto3_client "iam" region);;
  mret {| config := cfg |}.

Definition crear_security_group (self : DespliegueRH) : M string :=
  app_name ← item (config self) "app_name";
  let sg_name := py_str app_name +:+ "-sg" in
  environment ← item (config self) "environment";
  let description := "Security Group para aplicación de RH - " +:+ py_str environment in
  try_except
    (response ← llamar s (peticion_security_group sg_name description environment);
     sg_id ← get_GroupId response;
     print ("✓ Security Group creado: " +:+ sg_id);;
     llamar s (authorize_security_group_ingress sg_id reglas_entrada);;
     print ("✓ Reglas de seguridad configuradas para " +:+ sg_id);;
     mret sg_id)
    (fun e =>
       match e with
       | ClientError error_code _ =>
           Some (if String.eqb error_code "InvalidGroup.Duplicate" then
                   response ← llamar s (describe_security_groups [sg_name]);
                   sg_id ← get_first_SecurityGroup response;
                   print ("⚠ Security Group ya existe: " +:+ sg_id);;
                   mret sg_id
                 else
                   eprint ("✗ Error creando Security Group: " +:+ str_exn e);;
                   raise e)
       | _ => None
       end).

Definition crear_bucket_s3_backup (self : DespliegueRH) : M string :=
  app_name ← item (config self) "app_name";
  let bucket_name := py_str app_name +:+ "-backups-" +:+ pretty (reloj s) in
  try_except
    (region ← item (config self) "region";
     (if eq_str region "us-east-1" then
        llamar s (create_bucket bucket_name None)
      else
        llamar s (create_bucket bucket_name (Some region)));;
     llamar s (put_bucket_encryption bucket_name "AES256");;
     llamar s (put_bucket_versioning bucket_name "Enabled");;
     llamar s (put_public_access_block bucket_name true true true true);;
     environment ← item (config self) "environment";
     llamar s (peticion_tagging bucket_name environment);;
     print ("✓ Bucket S3 creado con encriptación: " +:+ bucket_name))
    (fun e =>
       match e with
       | ClientError _ _ =>
           Some (eprint ("✗ Error creando bucket S3: " +:+ str_exn e);;
                 raise e)
       | _ => None
       end);;
  mret bucket_name.

Definition crear_instancia_ec2 (self : DespliegueRH) (sg_id : string) : M string :=
  try_except
    (ami_id ← item (config self) "ami_id";
     instance_type ← item (config self) "instance_type";
     app_name ← item (config self) "app_name";
     environment ← item (config self) "environment";
     response ← llamar s (peticion_instancia ami_id instance_type app_name environment sg_id);
     instance_id ← get_first_Instance response;
     print ("✓ Instancia EC2 creada: " +:+ instance_id);;
     print "Esperando a que la instancia esté lista...";;
     llamar s (wait_instance_running [instance_id]);;
     print ("✓ Instancia " +:+ instance_id +:+ " está en estado 'running'");;
     mret instance_id)
    (fun e =>
       match e with
       | ClientError _ _ =>
           Some (eprint ("✗ Error creando instancia EC2: " +:+ str_exn e);;
                 raise e)
       | _ => None
       end).

Definition crear_base_datos_rds (self : DespliegueRH) : M string :=
  app_name ← item (config self) "app_name";
  let db_instance_id := py_str app_name +:+ "-db" in
  let db_password := environ s !! "RDS_ADMIN_PASSWORD" in
  try_except
    (db_allocated_storage ← item (config self) "db_allocated_storage";
     db_instance_class ← item (config self) "db_instance_class";
     environment ← item (config self) "environment";
     llamar s (peticion_base_datos db_instance_id db_allocated_storage db_instance_class
                 db_password environment);;
     print ("✓ Instancia RDS creada: " +:+ db_instance_id);;
     print "  - Encriptación en reposo: Habilitada";;
     print "  - Acceso público: Deshabilitado";;
     print "  - Retención de backups: 7 días")
    (fun e =>
       match e with
       | ClientError error_code _ =>
           Some (if String.eqb error_code "DBInstanceAlreadyExists" then
                   print ("⚠ Instancia RDS " +:+ db_instance_id +:+ " ya existe")
                 else
                   eprint ("✗ Error creando instancia RDS: " +:+ str_exn e);;
                   raise e)
       | _ => None
       end);;
  mret db_instance_id.

(** [recursos_creados = {}] *)
Definition recursos_vacios : M unit := fun w =>
  (Ret tt, {| traza := traza w; recursos_creados := [] |}).

(** [recursos_creados[k] = v] *)
Definition guardar (k v : string) : M unit := fun w =>
  (Ret tt, {| traza := traza w; recursos_creados := dict_set (recursos_creados w) k v |}).

(** [recursos_creados.items()] *)
Definition recursos_items : M (list (string * string)) := fun w =>
  (Ret (recursos_creados w), w).

(** The four numbered steps of the [try] in [desplegar]. *)
Definition paso_1 (self : DespliegueRH) : M string :=
  print (nl +:+ "[1/4] Creando Security Group...");;
  sg_id ← crear_security_group self;
  guardar "security_group" sg_id;;
  mret sg_id.

Definition paso_2 (self : DespliegueRH) : M string :=
  print (nl +:+ "[2/4] Creando bucket S3 para backups...");;
  bucket_name ← crear_bucket_s3_backup self;
  guardar "s3_bucket" bucket_name;;
  mret bucket_name.

Definition paso_3 (self : DespliegueRH) (sg_id : string) : M string :=
  print (nl +:+ "[3/4] Creando instancia EC2...");;
  instance_id ← crear_instancia_ec2 self sg_id;
  guardar "ec2_instance" instance_id;;
  mret instance_id.

Definition paso_4 (self : DespliegueRH) : M string :=
  print (nl +:+ "[4/4] Creando base de datos RDS...");;
  db_instance_id ← crear_base_datos_rds self;
  guardar "rds_instance" db_instance_id;;
  mret db_instance_id.

(** The summary that ends the [try]. *)
Definition resumen : M unit :=
  print (nl +:+ py_mul "=" 60);;
  print "DESPLIEGUE COMPLETADO EXITOSAMENTE";;
  print (py_mul "=" 60);;
  print (nl +:+ "Recursos creados:");;
  items ← recursos_items;
  para_cada items (fun rv => print ("  - " +:+ rv.1 +:+ ": " +:+ rv.2));;
  print (nl +:+ "⚠ IMPORTANTE - MEDIDAS DE SEGURIDAD:");;
  print "  1. Cambiar las contraseñas por defecto";;
  print "  2. Configurar certificados SSL para HTTPS";;
  print "  3. Restringir Security Groups a IPs específicas en producción";;
  print "  4. Habilitar CloudTrail para auditoría";;
  print "  5. Configurar backups automáticos";;
  print "  6. Revisar y ajustar políticas IAM";;
  print "  7. No subir credenciales al repositorio Git".

(** The body of the [try] in [desplegar]. *)
Definition desplegar_try (self : DespliegueRH) : M unit :=
  sg_id ← paso_1 self;
  paso_2 self;;
  paso_3 self sg_id;;
  paso_4 self;;
  resumen.

(** The [except Exception as e] clause of [desplegar]. *)
Definition desplegar_except (e : exn) : M unit :=
  eprint (nl +:+ "✗ Error durante el despliegue: " +:+ str_exn e);;
  print (nl +:+ "⚠ Algunos recursos pueden haber sido creados. Revisa la consola de AWS.");;
  raise (SystemExit 1).

(** What [desplegar] does before its [try]: the banner, and the empty
    [recursos_creados]. *)
Definition desplegar_cabecera (self : DespliegueRH) : M unit :=
  print (py_mul "=" 60);;
  print "INICIANDO DESPLIEGUE DE APLICACIÓN DE RECURSOS HUMANOS";;
  print (py_mul "=" 60);;
  region ← item (config self) "region";
  print ("Región: " +:+ py_str region);;
  environment ← item (config self) "environment";
  print ("Ambiente: " +:+ py_str environment);;
  app_name ← item (config self) "app_name";
  print ("Aplicación: " +:+ py_str app_name);;
  print (py_mul "=" 60);;
  print "";;
  recursos_vacios.

Definition desplegar (self : DespliegueRH) : M unit :=
  desplegar_cabecera self;;
  try_except (desplegar_try self)
    (fun e => if es_Exception e then Some (desplegar_except e) else None).

(** The [try] of [main]. *)
Definition main_try (config_arg : option string) : M unit :=
  despliegue ← __init__ config_arg;
  desplegar despliegue.

(** [main()], after [parser.parse_args()] has given [args.config]. *)
Definition main (config_arg : option string) : M unit :=
  try_except (main_try config_arg)
    (fun e =>
       match e with
       | KeyboardInterrupt =>
           Some (eprint (nl +:+ nl +:+ "⚠ Despliegue cancelado por el usuario");;
                 raise (SystemExit 1))
       | SystemExit _ => None
       | _ =>
           Some (eprint (nl +:+ "✗ Error fatal: " +:+ str_exn e);;
                 raise (SystemExit 1))
       end).

(** The exit status of the interpreter running [main()]: 0 when it
    returns, the argument of [sys.exit], 130 for an interrupt nobody
    caught and 1 for any other exception nobody caught. *)
Definition exit_status (r : result unit) : Z :=
  match r with
  | Ret _ => 0
  | Raise (SystemExit n) => n
  | Raise KeyboardInterrupt => 130
  | Raise _ => 1
  end.

Definition proceso (config_arg : option string) : Z * mundo :=
  let (r, w) := main config_arg mundo_inicial in (exit_status r, w).

End Programa.

(** ** A provider to run the script against

    An in-memory provider in which the names of rule sets and the
    identifiers of database instances are unique, as they are with the
    real one: creating under a name that is taken is refused with the
    provider's "duplicate" fault, and a lookup by name gives the
    identifier the creation returned. *)

Fixpoint buscar (nombre : string) (reg : list (string * string)) : option string :=
  match reg with
  | [] => None
  | (n, g) :: reg' => if String.eqb n nombre then Some g else buscar nombre reg'
  end.

Definition registrar (reg : list (string * string)) (c : llamada) : list (string * string) :=
  match c with
  | create_security_group nombre _ _ =>
      match buscar nombre reg with
      | Some _ => reg
      | None => reg ++ [(nombre, "sg-" +:+ pretty (Z.of_nat (length reg)))]
      end
  | _ => reg
  end.

(** The rule sets that exist after the calls [h]. *)
Definition grupos (h : list llamada) : list (string * string) :=
  fold_left registrar h [].

Fixpoint buscar_todos (nombres : list string) (reg : list (string * string)) : option (list string) :=
  match nombres with
  | [] => Some []
  | n :: ns =>
      match buscar n reg, buscar_todos ns reg with
      | Some g, Some gs => Some (g :: gs)
      | _, _ => None
      end
  end.

(** Whether the calls [h] created the database instance [ident]. *)
Fixpoint hay_base (ident : string) (h : list llamada) : bool :=
  match h with
  | [] => false
  | create_db_instance i _ _ _ _ _ _ _ _ _ _ _ _ _ :: h' => String.eqb i ident || hay_base ident h'
  | _ :: h' => hay_base ident h'
  end.

Definition nube_en_memoria (h : list llamada) (c : llamada) : result respuesta :=
  match c with
  | create_security_group nombre _ _ =>
      match buscar nombre (grupos h) with
      | Some _ => Raise (ClientError "InvalidGroup.Duplicate"
                           ("The security group '" +:+ nombre +:+ "' already exists"))
      | None => Ret (RGroupId ("sg-" +:+ pretty (Z.of_nat (length (grupos h)))))
      end
  | describe_security_groups nombres =>
      match buscar_todos nombres (grupos h) with
      | Some gs => Ret (RSecurityGroups gs)
      | None => Raise (ClientError "InvalidGroup.NotFound" "The security group does not exist")
      end
  | run_instances _ _ _ _ _ _ _ _ =>
      Ret (RInstances ["i-" +:+ pretty (Z.of_nat (length h))])
  | create_db_instance ident _ _ _ _ _ _ _ _ _ _ _ _ _ =>
      if hay_base ident h then
        Raise (ClientError "DBInstanceAlreadyExists" "DB instance already exists")
      else Ret RNada
  | _ => Ret RNada
  end.

(** A provider that answers the calls selected by [falla] with an
    exception and leaves the others to [base]. *)
Definition con_fallo (falla : llamada -> option exn)
    (base : list llamada -> llamada -> result respuesta)
    (h : list llamada) (c : llamada) : result respuesta :=
  match falla c with
  | Some e => Raise e
  | None => base h c
  end.

Definition entorno_completo : gmap string string :=
  list_to_map [
    ("RDS_ADMIN_PASSWORD", "s3cr3t0");
    ("AWS_ACCESS_KEY_ID", "AKIAEXAMPLE");
    ("AWS_SECRET_ACCESS_KEY", "wJalrEXAMPLEKEY")
  ].

(** A machine with the three variables set, no configuration file and
    the provider [n]. *)
Definition maquina (n : list llamada -> llamada -> result respuesta) : sistema :=
  {| environ := entorno_completo; archivos := ∅; reloj := 1700000000; nube := n |}.

Definition self_default : DespliegueRH := {| config := config_default |}.

(** ** Vocabulary of the statements *)

(** The state [w] after the events [evs]. *)
Definition tras (w : mundo) (evs : list evento) : mundo :=
  {| traza := traza w ++ evs; recursos_creados := recursos_creados w |}.

(** The keys of the configuration the script reads. *)
Definition claves : list string :=
  ["region"; "ami_id"; "instance_type"; "db_instance_class";
   "db_allocated_storage"; "app_name"; "environment"].

(** Every key the script reads is present. *)
Definition completa (c : gmap string value) : bool :=
  forallb (fun k => match c !! k with Some _ => true | None => false end) claves.

(** The state in which the [try] of [desplegar] starts. *)
Definition inicio (self : DespliegueRH) (w : mundo) : mundo :=
  (desplegar_cabecera self w).2.

(** [falla_en_paso s self w hechos e wf]: started in [w], the steps
    before the failing one return and put the entries [hechos] in
    [recursos_creados]; the next step raises [e], in the state [wf]. *)
Inductive falla_en_paso (s : sistema) (self : DespliegueRH) (w : mundo) :
    list (string * string) -> exn -> mundo -> Prop :=
| falla_1 e wf :
    paso_1 s self w = (Raise e, wf) ->
    falla_en_paso s self w [] e wf
| falla_2 sg_id w1 e wf :
    paso_1 s self w = (Ret sg_id, w1) ->
    paso_2 s self w1 = (Raise e, wf) ->
    falla_en_paso s self w [("security_group", sg_id)] e wf
| falla_3 sg_id w1 bucket_name w2 e wf :
    paso_1 s self w = (Ret sg_id, w1) ->
    paso_2 s self w1 = (Ret bucket_name, w2) ->
    paso_3 s self sg_id w2 = (Raise e, wf) ->
    falla_en_paso s self w [("security_group", sg_id); ("s3_bucket", bucket_name)] e wf
| falla_4 sg_id w1 bucket_name w2 instance_id w3 e wf :
    paso_1 s self w = (Ret sg_id, w1) ->
    paso_2 s self w1 = (Ret bucket_name, w2) ->
    paso_3 s self sg_id w2 = (Ret instance_id, w3) ->
    paso_4 s self w3 = (Raise e, wf) ->
    falla_en_paso s self w
      [("security_group", sg_id); ("s3_bucket", bucket_name); ("ec2_instance", instance_id)]
      e wf.

(** The two lines the [except] clause of [desplegar] prints. *)
Definition aviso_de_fallo (e : exn) : list evento :=
  [Print stderr (nl +:+ "✗ Error durante el despliegue: " +:+ str_exn e);
   Print stdout (nl +:+ "⚠ Algunos recursos pueden haber sido creados. Revisa la consola de AWS.")].

(** [sub in s] *)
Definition contiene (sub s : string) : bool :=
  match String.index 0 sub s with
  | Some _ => true
  | None => false
  end.

(** The events of a trace that follow its last call. *)
Definition despues_de_la_ultima_llamada (t : list evento) : list evento :=
  fold_left (fun acc ev => match ev with Call _ => [] | Print _ _ => acc ++ [ev] end) t [].

(** Some line of [t] mentions the text [v]. *)
Definition mencionado (v : string) (t : list evento) : bool :=
  existsb (fun ev => match ev with Print _ texto => contiene v texto | Call _ => false end) t.

(** The four calls that configure a bucket once it exists: encryption,
    versioning, public-access block and tags. *)
Definition configurar_bucket (bucket_name : string) (environment : value) : list llamada :=
  [put_bucket_encryption bucket_name "AES256";
   put_bucket_versioning bucket_name "Enabled";
   put_public_access_block bucket_name true true true true;
   peticion_tagging bucket_name environment].

(** A step leaves [recursos_creados] alone. *)
Definition conserva {A : Type} (m : M A) : Prop :=
  forall w, recursos_creados (m w).2 = recursos_creados w.

(** The claim that a failing deployment prints what it had provisioned:
    whenever the [try] of [desplegar] ends in an exception, every
    identifier accumulated in [recursos_creados] is mentioned by a line
    printed after the call that failed. *)
Definition imprime_parciales (s : sistema) (self : DespliegueRH) (w : mundo) : Prop :=
  forall e wf,
    desplegar_try s self (inicio self w) = (Raise e, wf) ->
    es_Exception e = true ->
    forall k v,
      In (k, v) (recursos_creados wf) ->
      mencionado v (despues_de_la_ultima_llamada (traza (desplegar s self w).2)) = true.

(** A provider that refuses to create buckets. *)
Definition sin_permiso_s3 (c : llamada) : option exn :=
  match c with
  | create_bucket _ _ => Some (ClientError "AccessDenied" "Access Denied")
  | _ => None
  end.

Definition maquina_sin_s3 : sistema := maquina (con_fallo sin_permiso_s3 nube_en_memoria).

(** The value the last pair of [items] with the key [k] gives it. *)
Fixpoint ultimo (k : string) (items : list (string * value)) : option value :=
  match items with
  | [] => None
  | (k', v) :: items' =>
      match ultimo k items' with
      | Some v' => Some v'
      | None => if String.eqb k' k then Some v else None
      end
  end.

(** The pairs of [items] whose key the script reads. *)
Definition conocidas (items : list (string * value)) : list (string * value) :=
  List.filter (fun kv => existsb (String.eqb kv.1) claves) items.

(** The system [s] with the file [ruta] holding [c]. *)
Definition con_archivo (s : sistema) (ruta : string) (c : contenido) : sistema :=
  {| environ := environ s; archivos := <[ruta := c]> (archivos s);
     reloj := reloj s; nube := nube s |}.

(** What [_validar_variables_entorno] prints for the list [faltantes]:
    a heading, one line for each entry, and the example. *)
Definition informe_faltantes (faltantes : list string) : list evento :=
  Print stderr "Error: Las siguientes variables de entorno deben estar definidas:"
  :: map (fun var => Print stderr ("  - " +:+ var)) faltantes
  ++ [Print stderr (nl +:+ "Ejemplo:");
      Print stderr "  export RDS_ADMIN_PASSWORD='tu_password_seguro'"].

(** [r] is a [KeyboardInterrupt] in flight. *)
Definition es_interrupcion {A : Type} (r : result A) : bool :=
  match r with
  | Raise KeyboardInterrupt => true
  | _ => false
  end.

(** Whether one of the calls of [nuevos], made after the calls [h], was
    answered by a [KeyboardInterrupt]. *)
Fixpoint interrumpida (s : sistema) (h : list llamada) (nuevos : list evento) : bool :=
  match nuevos with
  | [] => false
  | Print _ _ :: nuevos' => interrumpida s h nuevos'
  | Call c :: nuevos' => es_interrupcion (nube s h c) || interrumpida s (h ++ [c]) nuevos'
  end.

(** The events [nuevos] of a run that ended in [r] are faithful to
    interrupts: if [r] is a [KeyboardInterrupt], the last event is the
    call that was interrupted, and no call before it was; otherwise no
    call was interrupted. *)
Definition fiel {A : Type} (s : sistema) (h : list llamada) (nuevos : list evento)
    (r : result A) : Prop :=
  if es_interrupcion r then
    exists pre c,
      nuevos = pre ++ [Call c] /\
      interrumpida s h pre = false /\
      nube s (h ++ llamadas pre) c = Raise KeyboardInterrupt
  else interrumpida s h nuevos = false.

(** [m] neither raises a [KeyboardInterrupt] of its own nor catches
    one. *)
Definition transparente {A : Type} (s : sistema) (m : M A) : Prop :=
  forall w,
    exists nuevos,
      traza (m w).2 = traza w ++ nuevos /\
      fiel s (llamadas (traza w)) nuevos (m w).1.

(** The labels of the four resources, in the order of the steps. *)
Definition etiquetas : list string :=
  ["security_group"; "s3_bucket"; "ec2_instance"; "rds_instance"].

(** ** Machines for the examples *)



(** A provider that has no room for another database instance. *)
Definition sin_cuota_rds (c : llamada) : option exn :=
  match c with
  | create_db_instance _ _ _ _ _ _ _ _ _ _ _ _ _ _ =>
      Some (ClientError "InstanceQuotaExceeded" "Instance quota exceeded")
  | _ => None
  end.

(** The operator presses Ctrl-C while the script waits for the
    instance. *)
Definition ctrl_c_en_espera (c : llamada) : option exn :=
  match c with
  | wait_instance_running _ => Some KeyboardInterrupt
  | _ => None
  end.

(** A machine with the three variables set and the file [config.json]
    holding [c]. *)
Definition maquina_con_archivo (c : contenido) : sistema :=
  {| environ := entorno_completo; archivos := {["config.json" := c]};
     reloj := 1700000000; nube := nube_en_memoria |}.

(** A machine on which only the database password is set. *)
Definition maquina_sin_credenciales : sistema :=
  {| environ := {["RDS_ADMIN_PASSWORD" := "s3cr3t0"]}; archivos := ∅;
     reloj := 1700000000; nube := nube_en_memoria |}.

(** A deployment configured for another region. *)
Definition self_frankfurt : DespliegueRH :=
  {| config := update config_default [("region", VStr "eu-central-1")] |}.

(** A configuration file that names a key twice and a key the script
    does not read. *)
Definition pares_ejemplo : list (string * value) :=
  [("region", VStr "eu-west-1"); ("owner", VStr "rrhh"); ("region", VStr "sa-east-1");
   ("db_allocated_storage", VInt 50)].

(** ** Vocabulary of the further statements *)

(** What a step prints when it re-raises [e]: a line on the error
    stream for a [ClientError], nothing for any other exception. *)
Definition queja (prefijo : string) (e : exn) : list evento :=
  match e with
  | ClientError _ texto => [Print stderr (prefijo +:+ texto)]
  | _ => []
  end.

(** The waiter gives up: [botocore] raises a [WaiterError], which is
    not a [ClientError]. *)
Definition espera_agotada (c : llamada) : option exn :=
  match c with
  | wait_instance_running _ =>
      Some (OtherError "Waiter InstanceRunning failed: Max attempts exceeded")
  | _ => None
  end.

(** A provider without capacity for the instance. *)
Definition sin_capacidad (c : llamada) : option exn :=
  match c with
  | run_instances _ _ _ _ _ _ _ _ =>
      Some (ClientError "InsufficientInstanceCapacity" "Insufficient capacity")
  | _ => None
  end.

(** A provider whose answers to launches and lookups are empty. *)
Definition nube_vacia (h : list llamada) (c : llamada) : result respuesta :=
  match c with
  | run_instances _ _ _ _ _ _ _ _ => Ret (RInstances [])
  | create_security_group _ _ _ =>
      Raise (ClientError "InvalidGroup.Duplicate" "The security group already exists")
  | describe_security_groups _ => Ret (RSecurityGroups [])
  | _ => Ret RNada
  end.

(** A provider that answers the attachment of rules with the fault of a
    duplicate. *)
Definition autorizacion_duplicada (c : llamada) : option exn :=
  match c with
  | authorize_security_group_ingress _ _ =>
      Some (ClientError "InvalidGroup.Duplicate" "Duplicate")
  | _ => None
  end.

(** A provider that throttles lookups. *)
Definition busqueda_limitada (c : llamada) : option exn :=
  match c with
  | describe_security_groups _ =>
      Some (ClientError "RequestLimitExceeded" "Request limit exceeded")
  | _ => None
  end.

(** A provider that refuses to turn versioning on. *)
Definition sin_versionado (c : llamada) : option exn :=
  match c with
  | put_bucket_versioning _ _ => Some (ClientError "AccessDenied" "Access Denied")
  | _ => None
  end.

(** What [resumen] prints for the entries [items]. *)
Definition lineas_del_resumen (items : list (string * string)) : list evento :=
  [Print stdout (nl +:+ py_mul "=" 60);
   Print stdout "DESPLIEGUE COMPLETADO EXITOSAMENTE";
   Print stdout (py_mul "=" 60);
   Print stdout (nl +:+ "Recursos creados:")]
  ++ map (fun rv => Print stdout ("  - " +:+ rv.1 +:+ ": " +:+ rv.2)) items
  ++ [Print stdout (nl +:+ "⚠ IMPORTANTE - MEDIDAS DE SEGURIDAD:");
      Print stdout "  1. Cambiar las contraseñas por defecto";
      Print stdout "  2. Configurar certificados SSL para HTTPS";
      Print stdout "  3. Restringir Security Groups a IPs específicas en producción";
      Print stdout "  4. Habilitar CloudTrail para auditoría";
      Print stdout "  5. Configurar backups automáticos";
      Print stdout "  6. Revisar y ajustar políticas IAM";
      Print stdout "  7. No subir credenciales al repositorio Git"].

(** Every call [m] makes satisfies [P]. *)
Definition cada_llamada {A : Type} (P : llamada -> Prop) (m : M A) : Prop :=
  forall w, exists nuevos, traza (m w).2 = traza w ++ nuevos /\ Forall P (llamadas nuevos).

(** A launch, if [c] is one, puts the instance in the rule set [sg_id]
    and in no other. *)
Definition lanza_en (sg_id : string) (c : llamada) : Prop :=
  match c with
  | run_instances _ _ _ _ ids _ _ _ => ids = [sg_id]
  | _ => True
  end.

(** [c] is not a launch. *)
Definition no_lanza (c : llamada) : Prop :=
  match c with
  | run_instances _ _ _ _ _ _ _ _ => False
  | _ => True
  end.

(** The settings the script fixes for what it creates: a database that
    is private, encrypted, backed up for seven days and outside every
    rule set; a bucket encrypted with AES256, versioned and closed to
    the public; one instance per launch; the two rules of
    [reglas_entrada] and no other. *)
Definition ajustes_fijos (c : llamada) : Prop :=
  match c with
  | create_db_instance _ _ _ motor _ _ _ _ publica retencion cifrada clave grupos _ =>
      motor = "mysql" /\ publica = false /\ retencion = 7 /\ cifrada = true /\
      clave = "alias/aws/rds" /\ grupos = []
  | put_bucket_encryption _ algoritmo => algoritmo = "AES256"
  | put_bucket_versioning _ estado => estado = "Enabled"
  | put_public_access_block _ a b c d => a = true /\ b = true /\ c = true /\ d = true
  | run_instances _ minimo maximo _ _ perfil _ _ =>
      minimo = 1 /\ maximo = 1 /\ perfil = "LabInstanceProfile"
  | authorize_security_group_ingress _ permisos => permisos = reglas_entrada
  | _ => True
  end.

(** The only [SystemExit] that [m] raises is [sys.exit(1)]. *)
Definition sale_con_1 {A : Type} (m : M A) : Prop :=
  forall w n, (m w).1 = Raise (SystemExit n) -> n = 1.

(** The place of a call in the order of the script. *)
Definition rango (c : llamada) : nat :=
  match c with
  | boto3_client servicio _ =>
      if String.eqb servicio "ec2" then 0
      else if String.eqb servicio "rds" then 1
      else if String.eqb servicio "s3" then 2
      else 3
  | create_security_group _ _ _ => 4
  | authorize_security_group_ingress _ _ => 5
  | describe_security_groups _ => 6
  | create_bucket _ _ => 7
  | put_bucket_encryption _ _ => 8
  | put_bucket_versioning _ _ => 9
  | put_public_access_block _ _ _ _ _ => 10
  | put_bucket_tagging _ _ => 11
  | run_instances _ _ _ _ _ _ _ _ => 12
  | wait_instance_running _ => 13
  | create_db_instance _ _ _ _ _ _ _ _ _ _ _ _ _ _ => 14
  end.

(** [l] increases strictly, from [lo] at least and below [hi]. *)
Fixpoint creciente (lo hi : nat) (l : list nat) : Prop :=
  match l with
  | [] => (lo <= hi)%nat
  | x :: l' => (lo <= x)%nat /\ creciente (S x) hi l'
  end.

(** The calls [m] makes come in the order of the script, each at most
    once, between the places [lo] and [hi]. *)
Definition en_orden {A : Type} (lo hi : nat) (m : M A) : Prop :=
  forall w,
    exists nuevos,
      traza (m w).2 = traza w ++ nuevos /\
      creciente lo hi (map rango (llamadas nuevos)).

(** ** Two statements of the specification, as it words them *)



(** The claim that every file [json.load] accepts gives a merged
    configuration: whatever value the file at [ruta] parses to, the
    loader returns a record. *)
Definition mezcla_si_analiza (s : sistema) (ruta : string) (w : mundo) : Prop :=
  forall user_config,
    ruta <> "" ->
    archivos s !! ruta = Some (Json user_config) ->
    exists cfg, (_cargar_configuracion s (Some ruta) w).1 = Ret cfg.

(** A configuration file that holds the number [42]. *)
Definition maquina_con_numero : sistema :=
  maquina_con_archivo (Json (NoActualizable "'int' object is not iterable")).

(** * Properties *)

(** ** Traces *)

Lemma llamadas_app (a b : list evento) : llamadas (a ++ b) = llamadas a ++ llamadas b.
Proof.
  induction a as [|[c|f t] a IH]; simpl; [reflexivity| |assumption].
  now rewrite IH.
Qed.

Lemma emitir_tras (ev : evento) (w : mundo) : emitir ev w = tras w [ev].
Proof. reflexivity. Qed.

Lemma tras_tras (w : mundo) (a b : list evento) : tras (tras w a) b = tras w (a ++ b).
Proof. unfold tras; simpl. now rewrite app_assoc. Qed.

Lemma tras_nil (w : mundo) : tras w [] = w.
Proof. destruct w; unfold tras; simpl. now rewrite app_nil_r. Qed.

Lemma llamadas_tras (w : mundo) (evs : list evento) :
  llamadas (traza (tras w evs)) = llamadas (traza w) ++ llamadas evs.
Proof. apply llamadas_app. Qed.

(** Unfold the monad's operations, leaving the requests and the
    provider in place. *)
Ltac abrir :=
  unfold item, get_GroupId, get_first_SecurityGroup, get_first_Instance,
    print, eprint, raise, llamar, try_except, guardar, recursos_items, recursos_vacios,
    mbind, M_bind, mret, M_ret;
  cbn beta iota zeta.

(** Bring states to the form [tras w evs] and histories to
    [llamadas (traza w) ++ cs]. *)
Ltac ordenar :=
  rewrite ?emitir_tras, ?tras_tras, ?llamadas_tras; cbn [app llamadas];
  rewrite ?app_nil_r.

(** ** The database step *)

(** C4.  When the provider refuses the creation of the database instance
    with the fault [DBInstanceAlreadyExists], [crear_base_datos_rds]
    returns the identifier [<app_name>-db] and prints one warning on the
    standard output, nothing on the error stream; a fault with any other
    code is reported on the error stream and raised again, unchanged. *)
Theorem crear_base_datos_rds_ya_existe (s : sistema) (self : DespliegueRH) (w : mundo)
    (app_name almacenamiento clase environment : value) :
  config self !! "app_name" = Some app_name ->
  config self !! "db_allocated_storage" = Some almacenamiento ->
  config self !! "db_instance_class" = Some clase ->
  config self !! "environment" = Some environment ->
  let db_instance_id := py_str app_name +:+ "-db" in
  let c := peticion_base_datos db_instance_id almacenamiento clase
             (environ s !! "RDS_ADMIN_PASSWORD") environment in
  (forall texto,
     nube s (llamadas (traza w)) c = Raise (ClientError "DBInstanceAlreadyExists" texto) ->
     crear_base_datos_rds s self w =
       (Ret db_instance_id,
        tras w [Call c;
                Print stdout ("⚠ Instancia RDS " +:+ db_instance_id +:+ " ya existe")]))
  /\
  (forall code texto,
     code <> "DBInstanceAlreadyExists" ->
     nube s (llamadas (traza w)) c = Raise (ClientError code texto) ->
     crear_base_datos_rds s self w =
       (Raise (ClientError code texto),
        tras w [Call c; Print stderr ("✗ Error creando instancia RDS: " +:+ texto)])).
Proof.
  intros Ha Hs Hc He db_instance_id c. subst db_instance_id c.
  split.
  - intros texto Hn.
    unfold crear_base_datos_rds. abrir.
    rewrite Ha, Hs, Hc, He. cbn beta iota zeta.
    rewrite Hn. cbn beta iota zeta. rewrite String.eqb_refl. cbn beta iota.
    now ordenar.
  - intros code texto Hcode Hn.
    unfold crear_base_datos_rds. abrir.
    rewrite Ha, Hs, Hc, He. cbn beta iota zeta.
    rewrite Hn. cbn beta iota zeta.
    destruct (String.eqb_spec code "DBInstanceAlreadyExists") as [->|_]; [congruence|].
    cbn beta iota. now ordenar.
Qed.


(** ** The network rule set *)





(** Split on every reply, and on every exception, response or list
    the goal still inspects. *)
Ltac por_casos :=
  repeat match goal with
    | |- context [match nube ?s ?h ?c with _ => _ end] =>
        let E := fresh "Hnube" in
        destruct (nube s h c) eqn:E; cbn beta iota zeta; ordenar
    | |- context [match ?x with _ => _ end] =>
        is_var x;
        lazymatch type of x with
        | exn => destruct x
        | respuesta => destruct x
        | list _ => destruct x
        end; cbn beta iota zeta; ordenar
    | |- context [if String.eqb ?a ?b then _ else _] =>
        let E := fresh "Hcode" in
        destruct (String.eqb_spec a b) as [E|E]; cbn beta iota zeta; ordenar
    end.

(** Close a goal about membership in an explicit trace. *)
Ltac cerrar :=
  repeat match goal with
    | |- _ /\ _ => split
    | |- ~ _ => intro
    | |- forall _, _ => intro
    | H : In _ _ |- _ => simpl in H
    | H : _ \/ _ |- _ => destruct H
    | H : False |- _ => destruct H
    end;
  simplify_eq; eauto.

(** C10.  The rules for the ports 443 and 22 are attached only after a
    creation that succeeded: a run of [crear_security_group] contains
    an attachment call only if the provider answered the creation with
    an identifier, and then the call attaches [reglas_entrada] to that
    identifier.  When the creation is refused as a duplicate, the only
    calls are the refused creation and the lookup by name, and an
    identifier the method returns is the first one of the lookup. *)
Theorem reglas_solo_al_crear (s : sistema) (self : DespliegueRH) (w : mundo)
    (app_name environment : value) :
  config self !! "app_name" = Some app_name ->
  config self !! "environment" = Some environment ->
  let sg_name := py_str app_name +:+ "-sg" in
  let c := peticion_security_group sg_name
             ("Security Group para aplicación de RH - " +:+ py_str environment) environment in
  exists nuevos,
    traza (crear_security_group s self w).2 = traza w ++ nuevos /\
    (forall g perms,
       In (Call (authorize_security_group_ingress g perms)) nuevos ->
       nube s (llamadas (traza w)) c = Ret (RGroupId g) /\ perms = reglas_entrada) /\
    (forall texto,
       nube s (llamadas (traza w)) c = Raise (ClientError "InvalidGroup.Duplicate" texto) ->
       llamadas nuevos = [c; describe_security_groups [sg_name]] /\
       (forall g perms, ~ In (Call (authorize_security_group_ingress g perms)) nuevos) /\
       (forall g, (crear_security_group s self w).1 = Ret g ->
          exists otros,
            nube s (llamadas (traza w) ++ [c]) (describe_security_groups [sg_name])
              = Ret (RSecurityGroups (g :: otros)))).
Proof.
  intros Ha He sg_name c. subst sg_name c.
  remember (crear_security_group s self w) as run eqn:Hrun. revert Hrun.
  unfold crear_security_group. abrir. rewrite Ha, He. cbn beta iota zeta.
  por_casos.
  all: intros ->; eexists; (split; [reflexivity|]).
  all: cbn [fst snd llamadas]; unfold peticion_security_group in *.
  all: cerrar.
Qed.


(** ** The backup bucket *)

Lemma eq_str_true (v : value) (lit : string) : eq_str v lit = true <-> v = VStr lit.
Proof.
  destruct v; simpl; try (split; [discriminate|congruence]).
  rewrite String.eqb_eq. split; congruence.
Qed.

(** C5.  The calls of [crear_bucket_s3_backup].  The first call creates
    the bucket, without a location constraint when the region is
    [us-east-1] and with the configured region as the constraint
    otherwise.  The calls that follow are the same in both cases:
    encryption, versioning, public-access block and tags, in this order
    and for as long as none raises.  The method returns only after all
    five, and it does return when the provider answers all five. *)
Theorem crear_bucket_s3_backup_llamadas (s : sistema) (self : DespliegueRH) (w : mundo)
    (app_name region environment : value) :
  config self !! "app_name" = Some app_name ->
  config self !! "region" = Some region ->
  config self !! "environment" = Some environment ->
  let bucket_name := py_str app_name +:+ "-backups-" +:+ pretty (reloj s) in
  exists (restriccion : option value) (n : nat),
    let todas := create_bucket bucket_name restriccion :: configurar_bucket bucket_name environment in
    (region = VStr "us-east-1" -> restriccion = None) /\
    (region <> VStr "us-east-1" -> restriccion = Some region) /\
    (1 <= n <= 5)%nat /\
    llamadas (traza (crear_bucket_s3_backup s self w).2)
      = llamadas (traza w) ++ take n todas /\
    (forall b, (crear_bucket_s3_backup s self w).1 = Ret b -> b = bucket_name /\ n = 5%nat) /\
    ((forall i c, todas !! i = Some c ->
        exists r, nube s (llamadas (traza w) ++ take i todas) c = Ret r) ->
     crear_bucket_s3_backup s self w =
       (Ret bucket_name,
        tras w (map Call todas ++
                [Print stdout ("✓ Bucket S3 creado con encriptación: " +:+ bucket_name)]))).
Proof.
  intros Ha Hr He bucket_name. subst bucket_name.
  remember (crear_bucket_s3_backup s self w) as run eqn:Hrun. revert Hrun.
  unfold crear_bucket_s3_backup. abrir. rewrite Ha, Hr, He. cbn beta iota zeta.
  destruct (eq_str region "us-east-1") eqn:Hreg; intros Hrun;
    [exists None | exists (Some region)]; revert Hrun; por_casos; intros ->;
    match goal with |- context [tras w ?evs] => exists (length (llamadas evs)) end;
    cbn [fst snd llamadas length]; ordenar;
    unfold configurar_bucket, peticion_tagging in *; cbn [take map app].
  all: split; [intros Hv; try reflexivity; apply eq_str_true in Hv; congruence|].
  all: split; [intros Hv; try reflexivity; apply eq_str_true in Hreg; congruence|].
  all: split; [lia|].
  all: split; [reflexivity|].
  all: split; [intros b Hb; simplify_eq; auto|].
  all: intros Htodas; try reflexivity; exfalso.
  all: first
    [ destruct (Htodas 0%nat _ eq_refl) as [? Hx]; cbn [take] in Hx; rewrite ?app_nil_r in Hx; congruence
    | destruct (Htodas 1%nat _ eq_refl) as [? Hx]; cbn [take] in Hx; congruence
    | destruct (Htodas 2%nat _ eq_refl) as [? Hx]; cbn [take] in Hx; congruence
    | destruct (Htodas 3%nat _ eq_refl) as [? Hx]; cbn [take] in Hx; congruence
    | destruct (Htodas 4%nat _ eq_refl) as [? Hx]; cbn [take] in Hx; congruence ].
Qed.


(** ** The orchestrator *)

Lemma completa_valores (c : gmap string value) :
  completa c = true ->
  exists region ami_id instance_type db_instance_class db_allocated_storage app_name environment,
    c !! "region" = Some region /\
    c !! "ami_id" = Some ami_id /\
    c !! "instance_type" = Some instance_type /\
    c !! "db_instance_class" = Some db_instance_class /\
    c !! "db_allocated_storage" = Some db_allocated_storage /\
    c !! "app_name" = Some app_name /\
    c !! "environment" = Some environment.
Proof.
  unfold completa, claves. cbn [forallb]. intros H.
  repeat match type of H with
    | _ && _ = true => apply andb_prop in H; destruct H as [?H H]
    end.
  repeat match goal with
    | H : match ?x with Some _ => true | None => false end = true |- _ =>
        destruct x eqn:?; [clear H|discriminate H]
    end.
  do 7 eexists. repeat split; reflexivity.
Qed.

Section Conserva.

Context {A B : Type}.

Lemma conserva_ret (a : A) : conserva (mret a : M A).
Proof. intros w. reflexivity. Qed.

Lemma conserva_raise (e : exn) : conserva (raise e : M A).
Proof. intros w. reflexivity. Qed.

Lemma conserva_bind (m : M A) (k : A -> M B) :
  conserva m -> (forall a, conserva (k a)) -> conserva (m ≫= k).
Proof.
  intros Hm Hk w. unfold mbind, M_bind. specialize (Hm w).
  destruct (m w) as [[a|e] w1]; simpl in *; [|assumption].
  now rewrite Hk.
Qed.

Lemma conserva_try (m : M A) (h : exn -> option (M A)) :
  conserva m -> (forall e k, h e = Some k -> conserva k) -> conserva (try_except m h).
Proof.
  intros Hm Hh w. unfold try_except. specialize (Hm w).
  destruct (m w) as [[a|e] w1]; simpl in *; [assumption|].
  destruct (h e) as [k|] eqn:He; [|assumption].
  now rewrite (Hh e k He).
Qed.

End Conserva.

Lemma conserva_print (t : string) : conserva (print t).
Proof. intros w. reflexivity. Qed.

Lemma conserva_eprint (t : string) : conserva (eprint t).
Proof. intros w. reflexivity. Qed.

Lemma conserva_llamar (s : sistema) (c : llamada) : conserva (llamar s c).
Proof. intros w. reflexivity. Qed.

Lemma conserva_item (d : gmap string value) (k : string) : conserva (item d k).
Proof. intros w. unfold item. now destruct (d !! k). Qed.

(** Decompose a program into its operations. *)
Ltac conservar :=
  repeat first
    [ apply conserva_ret | apply conserva_raise | apply conserva_print
    | apply conserva_eprint | apply conserva_llamar | apply conserva_item
    | apply conserva_bind; [|intros ?]
    | apply conserva_try;
      [|let e := fresh "e" in let k := fresh "k" in let H := fresh "H" in
        intros e k H; destruct e; simplify_eq]
    | match goal with
      | |- conserva (if ?b then _ else _) => destruct b
      | |- conserva (match ?r with _ => _ end) => destruct r
      end ].

Lemma conserva_crear_security_group s self : conserva (crear_security_group s self).
Proof. unfold crear_security_group, get_GroupId, get_first_SecurityGroup. conservar. Qed.

Lemma conserva_crear_bucket_s3_backup s self : conserva (crear_bucket_s3_backup s self).
Proof. unfold crear_bucket_s3_backup. conservar. Qed.

Lemma conserva_crear_instancia_ec2 s self sg_id : conserva (crear_instancia_ec2 s self sg_id).
Proof. unfold crear_instancia_ec2, get_first_Instance. conservar. Qed.

Lemma conserva_crear_base_datos_rds s self : conserva (crear_base_datos_rds s self).
Proof. unfold crear_base_datos_rds. conservar. Qed.

(** A numbered step: announce, run, record the identifier. *)
Lemma paso_recursos (t k : string) (m : M string) (w : mundo) :
  conserva m ->
  match (print t;; x ← m; guardar k x;; mret x) w with
  | (Ret x, w') => recursos_creados w' = dict_set (recursos_creados w) k x
  | (Raise _, w') => recursos_creados w' = recursos_creados w
  end.
Proof.
  intros Hm. abrir. specialize (Hm (emitir (Print stdout t) w)).
  destruct (m (emitir (Print stdout t) w)) as [[x|e] w1]; simpl in *; now rewrite Hm.
Qed.

Lemma inicio_recursos (self : DespliegueRH) (w : mundo) :
  completa (config self) = true ->
  desplegar_cabecera self w = (Ret tt, inicio self w) /\ recursos_creados (inicio self w) = [].
Proof.
  intros Hc. destruct (completa_valores _ Hc) as (r & _ & _ & _ & _ & a & e & Hr & _ & _ & _ & _ & Ha & He).
  unfold inicio, desplegar_cabecera. abrir. rewrite Hr, He, Ha. cbn beta iota zeta.
  split; reflexivity.
Qed.

(** What [desplegar] does when its [try] ends in an exception that
    derives from [Exception]. *)
Lemma desplegar_tras_fallo (s : sistema) (self : DespliegueRH) (w : mundo) (e : exn) (wf : mundo) :
  completa (config self) = true ->
  desplegar_try s self (inicio self w) = (Raise e, wf) ->
  es_Exception e = true ->
  desplegar s self w = (Raise (SystemExit 1), tras wf (aviso_de_fallo e)).
Proof.
  intros Hc Htry He. destruct (inicio_recursos self w Hc) as [Hcab _].
  unfold desplegar. unfold mbind at 1, M_bind at 1. rewrite Hcab.
  unfold try_except. rewrite Htry, He. unfold desplegar_except, aviso_de_fallo. abrir.
  now ordenar.
Qed.

Lemma falla_en_paso_try (s : sistema) (self : DespliegueRH) (w : mundo)
    (hechos : list (string * string)) (e : exn) (wf : mundo) :
  falla_en_paso s self w hechos e wf ->
  desplegar_try s self w = (Raise e, wf) /\
  (recursos_creados w = [] -> recursos_creados wf = hechos).
Proof.
  intros H. unfold desplegar_try, mbind, M_bind.
  pose proof (fun w => paso_recursos (nl +:+ "[1/4] Creando Security Group...")
                 "security_group" _ w (conserva_crear_security_group s self)) as R1.
  pose proof (fun w => paso_recursos (nl +:+ "[2/4] Creando bucket S3 para backups...")
                 "s3_bucket" _ w (conserva_crear_bucket_s3_backup s self)) as R2.
  pose proof (fun sg w => paso_recursos (nl +:+ "[3/4] Creando instancia EC2...")
                 "ec2_instance" _ w (conserva_crear_instancia_ec2 s self sg)) as R3.
  pose proof (fun w => paso_recursos (nl +:+ "[4/4] Creando base de datos RDS...")
                 "rds_instance" _ w (conserva_crear_base_datos_rds s self)) as R4.
  fold (paso_1 s self) in R1. fold (paso_2 s self) in R2.
  change (forall sg w, match paso_3 s self sg w with
                       | (Ret x, w') => recursos_creados w' = dict_set (recursos_creados w) "ec2_instance" x
                       | (Raise _, w') => recursos_creados w' = recursos_creados w
                       end) in R3.
  fold (paso_4 s self) in R4.
  destruct H as [e wf H1 | sg w1 e wf H1 H2 | sg w1 b w2 e wf H1 H2 H3
                | sg w1 b w2 i w3 e wf H1 H2 H3 H4].
  - rewrite H1. split; [reflexivity|]. intros Hw.
    specialize (R1 w). rewrite H1 in R1. congruence.
  - rewrite H1, H2. split; [reflexivity|]. intros Hw.
    specialize (R1 w). rewrite H1, Hw in R1.
    specialize (R2 w1). rewrite H2, R1 in R2. exact R2.
  - rewrite H1, H2, H3. split; [reflexivity|]. intros Hw.
    specialize (R1 w). rewrite H1, Hw in R1.
    specialize (R2 w1). rewrite H2, R1 in R2.
    specialize (R3 sg w2). rewrite H3, R2 in R3. exact R3.
  - rewrite H1, H2, H3, H4. split; [reflexivity|]. intros Hw.
    specialize (R1 w). rewrite H1, Hw in R1.
    specialize (R2 w1). rewrite H2, R1 in R2.
    specialize (R3 sg w2). rewrite H3, R2 in R3.
    specialize (R4 w3). rewrite H4, R3 in R4. exact R4.
Qed.


Lemma proceso_sys_exit (s : sistema) (config_arg : option string) (self : DespliegueRH)
    (w wf : mundo) (n : Z) :
  __init__ s config_arg mundo_inicial = (Ret self, w) ->
  desplegar s self w = (Raise (SystemExit n), wf) ->
  proceso s config_arg = (n, wf).
Proof.
  intros Hi Hd. unfold proceso, main, main_try, try_except, mbind, M_bind.
  now rewrite Hi, Hd.
Qed.

(** C1.  A step of the deployment raises.  When the steps before it
    have returned, leaving their entries in [recursos_creados], and the
    next one raises an exception that derives from [Exception], the
    [try] of [desplegar] ends in the state in which that step raised, so
    that no later step runs; [recursos_creados] holds the entries of the
    steps that returned and no other; no call follows; and [desplegar]
    leaves through [sys.exit(1)], which makes the exit status of the
    process 1. *)
Theorem desplegar_se_detiene (s : sistema) (self : DespliegueRH) (w : mundo)
    (hechos : list (string * string)) (e : exn) (wf : mundo) :
  completa (config self) = true ->
  falla_en_paso s self (inicio self w) hechos e wf ->
  es_Exception e = true ->
  desplegar_try s self (inicio self w) = (Raise e, wf) /\
  recursos_creados wf = hechos /\
  (exists final,
     desplegar s self w = (Raise (SystemExit 1), final) /\
     recursos_creados final = hechos /\
     llamadas (traza final) = llamadas (traza wf) /\
     (forall config_arg,
        __init__ s config_arg mundo_inicial = (Ret self, w) ->
        proceso s config_arg = (1, final))).
Proof.
  intros Hc Hf He.
  destruct (falla_en_paso_try _ _ _ _ _ _ Hf) as [Htry Hrec].
  destruct (inicio_recursos self w Hc) as [_ Hvacio].
  pose proof (desplegar_tras_fallo s self w e wf Hc Htry He) as Hd.
  split; [exact Htry|]. split; [auto|].
  exists (tras wf (aviso_de_fallo e)). split; [exact Hd|]. split; [simpl; auto|].
  split.
  - rewrite llamadas_tras. simpl. now rewrite app_nil_r.
  - intros config_arg Hi. now apply (proceso_sys_exit s config_arg self w).
Qed.

Lemma desplegar_se_detiene_witness :
  let s := maquina_sin_s3 in
  let e := ClientError "AccessDenied" "Access Denied" in
  let w := (__init__ s None mundo_inicial).2 in
  let wf := (desplegar_try s self_default (inicio self_default w)).2 in
  completa (config self_default) = true /\
  falla_en_paso s self_default (inicio self_default w) [("security_group", "sg-0")] e wf /\
  es_Exception e = true /\
  desplegar_try s self_default (inicio self_default w) = (Raise e, wf) /\
  recursos_creados wf = [("security_group", "sg-0")] /\
  (proceso s None).1 = 1.
Proof.
  intros s e w wf.
  assert (Hc : completa (config self_default) = true) by reflexivity.
  assert (Hf : falla_en_paso s self_default (inicio self_default w)
                 [("security_group", "sg-0")] e wf).
  { eapply falla_2; vm_compute; reflexivity. }
  destruct (desplegar_se_detiene s self_default w _ _ wf Hc Hf eq_refl)
    as (Htry & Hrec & final & _ & _ & _ & Hp).
  split; [exact Hc|]. split; [exact Hf|]. split; [reflexivity|].
  split; [exact Htry|]. split; [exact Hrec|].
  rewrite (Hp None); [reflexivity|vm_compute; reflexivity].
Defined.

(** C2, as the code has it.  When the [try] of [desplegar] ends in an
    exception that derives from [Exception], [desplegar] prints the
    message of the exception on the error stream and, on the standard
    output, the warning that some resources may have been created; then
    it leaves through [sys.exit(1)].  It prints nothing else: the two
    lines are the same whatever [recursos_creados] holds, and the
    entries stay where they were. *)
Theorem desplegar_aviso (s : sistema) (self : DespliegueRH) (w : mundo) (e : exn) (wf : mundo) :
  completa (config self) = true ->
  desplegar_try s self (inicio self w) = (Raise e, wf) ->
  es_Exception e = true ->
  desplegar s self w =
    (Raise (SystemExit 1),
     tras wf
       [Print stderr (nl +:+ "✗ Error durante el despliegue: " +:+ str_exn e);
        Print stdout
          (nl +:+ "⚠ Algunos recursos pueden haber sido creados. Revisa la consola de AWS.")]) /\
  recursos_creados (desplegar s self w).2 = recursos_creados wf /\
  exit_status (desplegar s self w).1 = 1.
Proof.
  intros Hc Htry He.
  pose proof (desplegar_tras_fallo s self w e wf Hc Htry He) as Hd.
  rewrite Hd. repeat split.
Qed.

Lemma desplegar_aviso_witness :
  let s := maquina_sin_s3 in
  let e := ClientError "AccessDenied" "Access Denied" in
  let wf := (desplegar_try s self_default (inicio self_default mundo_inicial)).2 in
  completa (config self_default) = true /\
  desplegar_try s self_default (inicio self_default mundo_inicial) = (Raise e, wf) /\
  es_Exception e = true /\
  despues_de_la_ultima_llamada (traza (desplegar s self_default mundo_inicial).2) =
    [Print stderr "✗ Error creando bucket S3: Access Denied";
     Print stderr (nl +:+ "✗ Error durante el despliegue: Access Denied");
     Print stdout
       (nl +:+ "⚠ Algunos recursos pueden haber sido creados. Revisa la consola de AWS.")].
Proof.
  intros s e wf.
  assert (Hc : completa (config self_default) = true) by reflexivity.
  assert (Htry : desplegar_try s self_default (inicio self_default mundo_inicial) = (Raise e, wf))
    by (vm_compute; reflexivity).
  destruct (desplegar_aviso s self_default mundo_inicial e wf Hc Htry eq_refl) as [Hd _].
  split; [exact Hc|]. split; [exact Htry|]. split; [reflexivity|].
  rewrite Hd. vm_compute. reflexivity.
Defined.

(** C2, as the specification states it, fails: with a provider that
    refuses to create the bucket, the rule set [sg-0] is in
    [recursos_creados] when the deployment fails, and no line printed
    after the failing call mentions it. *)
Lemma desplegar_no_imprime_parciales :
  ~ imprime_parciales maquina_sin_s3 self_default mundo_inicial.
Proof.
  intros H.
  specialize (H (ClientError "AccessDenied" "Access Denied")
                (desplegar_try maquina_sin_s3 self_default (inicio self_default mundo_inicial)).2).
  assert (Htry : desplegar_try maquina_sin_s3 self_default (inicio self_default mundo_inicial)
                 = (Raise (ClientError "AccessDenied" "Access Denied"),
                    (desplegar_try maquina_sin_s3 self_default
                       (inicio self_default mundo_inicial)).2))
    by (vm_compute; reflexivity).
  specialize (H Htry eq_refl "security_group" "sg-0").
  assert (Hin : In ("security_group", "sg-0")
                  (recursos_creados (desplegar_try maquina_sin_s3 self_default
                                       (inicio self_default mundo_inicial)).2))
    by (vm_compute; auto).
  specialize (H Hin). vm_compute in H. discriminate H.
Qed.


(** ** Configuration and environment *)

Lemma hay_archivo_presente (s : sistema) (ruta : string) (c : contenido) :
  ruta <> "" -> archivos s !! ruta = Some c -> hay_archivo s (Some ruta) = Some ruta.
Proof.
  intros Hr Hc. unfold hay_archivo.
  destruct (String.eqb_spec ruta "") as [->|_]; [congruence|].
  rewrite Hc. reflexivity.
Qed.

Lemma hay_archivo_ausente (s : sistema) (ruta : string) :
  archivos s !! ruta = None -> hay_archivo s (Some ruta) = None.
Proof.
  intros Hc. unfold hay_archivo. destruct (String.eqb ruta ""); [reflexivity|].
  rewrite Hc. reflexivity.
Qed.

Lemma update_lookup (items : list (string * value)) (d : gmap string value) (k : string) :
  update d items !! k = match ultimo k items with Some v => Some v | None => d !! k end.
Proof.
  revert d. induction items as [|[k' v] items IH]; intros d; [reflexivity|].
  unfold update in *. simpl. rewrite IH.
  destruct (ultimo k items); [reflexivity|].
  destruct (String.eqb_spec k' k) as [->|Hne].
  - now rewrite lookup_insert_eq.
  - now rewrite lookup_insert_ne.
Qed.

Lemma ultimo_filter (p : string -> bool) (k : string) (items : list (string * value)) :
  p k = true -> ultimo k (List.filter (fun kv => p kv.1) items) = ultimo k items.
Proof.
  intros Hk. induction items as [|[k' v] items IH]; [reflexivity|].
  cbn [List.filter fst]. destruct (p k') eqn:Hx; cbn [ultimo]; rewrite IH; [reflexivity|].
  destruct (ultimo k items); [reflexivity|].
  destruct (String.eqb_spec k' k) as [->|_]; [congruence|reflexivity].
Qed.

Lemma ultimo_conocidas (k : string) (items : list (string * value)) :
  In k claves -> ultimo k (conocidas items) = ultimo k items.
Proof.
  intros Hk. unfold conocidas.
  apply (ultimo_filter (fun k' => existsb (String.eqb k') claves)).
  apply existsb_exists. exists k. split; [assumption|apply String.eqb_refl].
Qed.

Lemma update_conocidas (items : list (string * value)) (k : string) :
  In k claves ->
  update config_default (conocidas items) !! k = update config_default items !! k.
Proof. intros Hk. now rewrite !update_lookup, ultimo_conocidas. Qed.

(** The invariant of the configuration: whatever the file overrides,
    the keys of the defaults stay. *)
Lemma update_completa (items : list (string * value)) :
  completa (update config_default items) = true.
Proof.
  unfold completa. apply forallb_forall. intros k Hk. rewrite update_lookup.
  destruct (ultimo k items); [reflexivity|].
  simpl in Hk. repeat destruct Hk as [<-|Hk]; try reflexivity. destruct Hk.
Qed.

(** C7.  A configuration file that is not valid JSON: the loader prints
    the parse error on the error stream and leaves through
    [sys.exit(1)]; the process ends with status 1 and that line is all
    it did, so that no call was made. *)
Theorem configuracion_malformada (s : sistema) (ruta texto : string) :
  ruta <> "" ->
  archivos s !! ruta = Some (Malformado texto) ->
  let linea := Print stderr ("Error: Archivo de configuración inválido: " +:+ texto) in
  (forall w, _cargar_configuracion s (Some ruta) w = (Raise (SystemExit 1), tras w [linea])) /\
  proceso s (Some ruta) = (1, tras mundo_inicial [linea]) /\
  llamadas (traza (proceso s (Some ruta)).2) = [].
Proof.
  intros Hr Hf linea.
  assert (Hcarga : forall w, _cargar_configuracion s (Some ruta) w
                             = (Raise (SystemExit 1), tras w [linea])).
  { intros w. unfold _cargar_configuracion. rewrite (hay_archivo_presente s ruta _ Hr Hf).
    unfold json_load. rewrite Hf. abrir. now ordenar. }
  assert (Hp : proceso s (Some ruta) = (1, tras mundo_inicial [linea])).
  { unfold proceso, main, main_try, __init__, try_except, mbind, M_bind.
    rewrite Hcarga. reflexivity. }
  split; [exact Hcarga|]. split; [exact Hp|]. rewrite Hp. reflexivity.
Qed.


(** The deployment reads the configuration through the keys of [claves]
    only. *)
Lemma desplegar_depende_de_claves (s : sistema) (c c' : gmap string value) (w : mundo) :
  (forall k, In k claves -> c !! k = c' !! k) ->
  desplegar s {| config := c |} w = desplegar s {| config := c' |} w.
Proof.
  intros H.
  assert (H1 := H "region"). assert (H2 := H "ami_id"). assert (H3 := H "instance_type").
  assert (H4 := H "db_instance_class"). assert (H5 := H "db_allocated_storage").
  assert (H6 := H "app_name"). assert (H7 := H "environment").
  unfold claves in *. simpl In in *.
  unfold desplegar, desplegar_cabecera, desplegar_try, paso_1, paso_2, paso_3, paso_4,
    crear_security_group, crear_bucket_s3_backup, crear_instancia_ec2, crear_base_datos_rds,
    item.
  cbn [config].
  rewrite H1, H2, H3, H4, H5, H6, H7 by tauto. reflexivity.
Qed.

Lemma main_try_conocidas (s : sistema) (ruta : string) (items : list (string * value)) (w : mundo) :
  ruta <> "" ->
  archivos s !! ruta = Some (Json (Pares items)) ->
  main_try (con_archivo s ruta (Json (Pares (conocidas items)))) (Some ruta) w
  = main_try s (Some ruta) w.
Proof.
  intros Hr Hf.
  set (s' := con_archivo s ruta (Json (Pares (conocidas items)))).
  assert (Hf' : archivos s' !! ruta = Some (Json (Pares (conocidas items))))
    by apply lookup_insert_eq.
  unfold main_try, __init__, _cargar_configuracion.
  rewrite (hay_archivo_presente s ruta _ Hr Hf), (hay_archivo_presente s' ruta _ Hr Hf').
  unfold json_load. rewrite Hf, Hf'.
  change (_validar_variables_entorno s') with (_validar_variables_entorno s).
  unfold dict_update, try_except, mbind, M_bind, mret, M_ret. cbn beta iota.
  destruct (_validar_variables_entorno s w) as [[[]|e] w1]; [|reflexivity].
  unfold item. rewrite (update_conocidas items "region") by (simpl; tauto).
  destruct (update config_default items !! "region") as [region|]; [|reflexivity].
  change (llamar s') with (llamar s). unfold mret, M_ret. cbn beta iota zeta.
  destruct (llamar s (boto3_client "ec2" region) w1) as [[r1|e1] w2]; [|reflexivity].
  destruct (llamar s (boto3_client "rds" region) w2) as [[r2|e2] w3]; [|reflexivity].
  destruct (llamar s (boto3_client "s3" region) w3) as [[r3|e3] w4]; [|reflexivity].
  destruct (llamar s (boto3_client "iam" region) w4) as [[r4|e4] w5]; [|reflexivity].
  change (desplegar s') with (desplegar s).
  apply desplegar_depende_de_claves. intros k Hk. now apply update_conocidas.
Qed.

(** C6, as the code has it.  The configuration the loader returns.  For
    a file that holds a
    JSON object, it is the default record updated with the pairs of the
    file in their order, so that each key has the value of the last pair
    that names it, or its default when no pair does.  Keys the script
    does not read stay in the record and do not matter: they change none
    of the values it reads, and the process with them removed from the
    file does exactly the same.  Without a path, with an empty one, or
    with one that names no file, the loader returns the default
    record. *)
Theorem cargar_configuracion_mezcla (s : sistema) (w : mundo) :
  (forall ruta items,
     ruta <> "" ->
     archivos s !! ruta = Some (Json (Pares items)) ->
     _cargar_configuracion s (Some ruta) w = (Ret (update config_default items), w) /\
     (forall k,
        update config_default items !! k
        = match ultimo k items with Some v => Some v | None => config_default !! k end) /\
     (forall k, In k claves ->
        update config_default (conocidas items) !! k = update config_default items !! k) /\
     proceso (con_archivo s ruta (Json (Pares (conocidas items)))) (Some ruta)
     = proceso s (Some ruta)) /\
  _cargar_configuracion s None w = (Ret config_default, w) /\
  _cargar_configuracion s (Some "") w = (Ret config_default, w) /\
  (forall ruta,
     archivos s !! ruta = None ->
     _cargar_configuracion s (Some ruta) w = (Ret config_default, w)).
Proof.
  split; [|split; [reflexivity|split; [reflexivity|]]].
  - intros ruta items Hr Hf. split; [|split; [|split]].
    + unfold _cargar_configuracion. rewrite (hay_archivo_presente s ruta _ Hr Hf).
      unfold json_load. rewrite Hf. reflexivity.
    + intros k. apply update_lookup.
    + intros k Hk. now apply update_conocidas.
    + unfold proceso, main, try_except.
      now rewrite (main_try_conocidas s ruta items _ Hr Hf).
  - intros ruta Hf. unfold _cargar_configuracion. now rewrite (hay_archivo_ausente s ruta Hf).
Qed.

(** C6, as the specification states it, fails.  A file that holds the
    number [42] parses, and [dict.update] rejects what it holds: the
    loader raises that error and returns no configuration. *)
Lemma numero_sin_mezcla :
  _cargar_configuracion maquina_con_numero (Some "config.json") mundo_inicial
    = (Raise (OtherError "'int' object is not iterable"), mundo_inicial) /\
  ~ mezcla_si_analiza maquina_con_numero "config.json" mundo_inicial.
Proof.
  assert (Hraise : _cargar_configuracion maquina_con_numero (Some "config.json") mundo_inicial
                   = (Raise (OtherError "'int' object is not iterable"), mundo_inicial))
    by (vm_compute; reflexivity).
  split; [exact Hraise|].
  intros H.
  destruct (H (NoActualizable "'int' object is not iterable")) as [cfg Hcfg].
  - discriminate.
  - reflexivity.
  - rewrite Hraise in Hcfg. discriminate Hcfg.
Qed.


Lemma para_cada_eprint (f : string -> string) (l : list string) (w : mundo) :
  para_cada l (fun x => eprint (f x)) w = (Ret tt, tras w (map (fun x => Print stderr (f x)) l)).
Proof.
  revert w. induction l as [|x l IH]; intros w.
  - simpl. unfold mret, M_ret. now rewrite tras_nil.
  - cbn [para_cada map]. unfold mbind, M_bind, eprint. rewrite IH. now ordenar.
Qed.

Lemma recoger_filter (s : sistema) (vars : list (string * string)) (acc : list string) :
  recoger s vars acc
  = acc ++ map (fun vd => vd.1 +:+ " (" +:+ vd.2 +:+ ")") (List.filter (fun vd => falta s vd.1) vars).
Proof.
  revert acc. induction vars as [|[var d] vars IH]; intros acc; cbn [recoger List.filter fst].
  - now rewrite app_nil_r.
  - rewrite IH. destruct (falta s var); [|reflexivity].
    cbn [map fst snd]. now rewrite <- app_assoc.
Qed.

Lemma validar_faltantes (s : sistema) (w : mundo) :
  recoger s variables_requeridas [] <> [] ->
  _validar_variables_entorno s w
  = (Raise (SystemExit 1), tras w (informe_faltantes (recoger s variables_requeridas []))).
Proof.
  intros Hne. unfold _validar_variables_entorno.
  destruct (recoger s variables_requeridas []) as [|x l]; [congruence|].
  unfold mbind, M_bind. unfold eprint at 1. cbn beta iota.
  rewrite (para_cada_eprint (fun var => "  - " +:+ var)).
  unfold eprint, raise, informe_faltantes. cbn beta iota. ordenar.
  reflexivity.
Qed.

(** The loader makes no call, and raises nothing but [SystemExit(1)]
    and the errors of [open] and [update]. *)
Lemma cargar_sin_llamadas (s : sistema) (config_arg : option string) (w : mundo) :
  llamadas (traza (_cargar_configuracion s config_arg w).2) = llamadas (traza w) /\
  match (_cargar_configuracion s config_arg w).1 with
  | Ret _ | Raise (OtherError _) => True
  | Raise (SystemExit n) => n = 1
  | Raise _ => False
  end.
Proof.
  unfold _cargar_configuracion. destruct (hay_archivo s config_arg) as [ruta|]; [|now split].
  unfold json_load, dict_update.
  destruct (archivos s !! ruta) as [[t|t|[items|t]]|]; abrir; cbn [fst snd]; ordenar; now split.
Qed.

(** C8.  Required variables that are not set.  Whatever non-empty set of
    the three variables is missing from the environment, the validator
    lists every one of them with its description, under a heading and
    followed by the example, all on the error stream, and leaves
    through [sys.exit(1)]; and the process, whatever its argument, ends
    with status 1 without having made a call. *)
Theorem validar_informa_todas (s : sistema) (ausentes : list (string * string)) :
  ausentes <> [] ->
  incl ausentes variables_requeridas ->
  (forall var descripcion, In (var, descripcion) ausentes -> environ s !! var = None) ->
  let faltantes := recoger s variables_requeridas [] in
  (forall var descripcion,
     In (var, descripcion) ausentes ->
     In (var +:+ " (" +:+ descripcion +:+ ")") faltantes /\
     In (Print stderr ("  - " +:+ var +:+ " (" +:+ descripcion +:+ ")"))
        (informe_faltantes faltantes)) /\
  (forall w,
     _validar_variables_entorno s w
     = (Raise (SystemExit 1), tras w (informe_faltantes faltantes))) /\
  (forall config_arg,
     (proceso s config_arg).1 = 1 /\ llamadas (traza (proceso s config_arg).2) = []).
Proof.
  intros Hne Hincl Hnone faltantes.
  assert (Hen : forall var d, In (var, d) ausentes ->
                  In (var +:+ " (" +:+ d +:+ ")") faltantes).
  { intros var d Hin. unfold faltantes. rewrite recoger_filter. cbn [app].
    apply (in_map (fun vd => vd.1 +:+ " (" +:+ vd.2 +:+ ")") _ (var, d)).
    apply filter_In. split; [now apply Hincl|].
    cbn [fst]. unfold falta. now rewrite (Hnone var d Hin). }
  assert (Hfalt : faltantes <> []).
  { destruct ausentes as [|[var d] r]; [congruence|].
    intros Heq. specialize (Hen var d (or_introl eq_refl)). rewrite Heq in Hen. destruct Hen. }
  assert (Hval := fun w => validar_faltantes s w Hfalt). fold faltantes in Hval.
  split; [|split].
  - intros var d Hin. split; [now apply Hen|].
    unfold informe_faltantes. right. apply in_or_app. left.
    apply (in_map (fun v => Print stderr ("  - " +:+ v))). now apply Hen.
  - exact Hval.
  - intros config_arg.
    assert (Hp : exists w', proceso s config_arg = (1, w') /\ llamadas (traza w') = []).
    { unfold proceso, main, main_try, __init__, try_except.
      unfold mbind at 1 2, M_bind at 1 2.
      destruct (cargar_sin_llamadas s config_arg mundo_inicial) as [Hll He].
      destruct (_cargar_configuracion s config_arg mundo_inicial) as [[cfg|e] w1];
        cbn [fst snd traza mundo_inicial llamadas] in Hll, He.
      - unfold mbind at 1, M_bind at 1. rewrite Hval. cbn beta iota.
        eexists. split; [reflexivity|]. rewrite llamadas_tras, Hll.
        unfold informe_faltantes. cbn [llamadas app]. rewrite llamadas_app.
        cbn [llamadas]. rewrite app_nil_r.
        clear. induction faltantes; [reflexivity|assumption].
      - destruct e; try contradiction; subst; abrir; eexists; (split; [reflexivity|]);
          ordenar; rewrite ?Hll; reflexivity. }
    destruct Hp as (w' & -> & Hw'). split; [reflexivity|exact Hw'].
Qed.


(** ** Interrupts *)

Lemma interrumpida_app (s : sistema) (h : list llamada) (a b : list evento) :
  interrumpida s h (a ++ b) = interrumpida s h a || interrumpida s (h ++ llamadas a) b.
Proof.
  revert h. induction a as [|[c|f t] a IH]; intros h; cbn [app interrumpida llamadas].
  - now rewrite app_nil_r.
  - rewrite IH, <- app_assoc, orb_assoc. reflexivity.
  - apply IH.
Qed.

Lemma interrumpida_llamada (s : sistema) (h : list llamada) (t pre post : list evento)
    (c : llamada) :
  interrumpida s h t = false ->
  t = pre ++ Call c :: post ->
  nube s (h ++ llamadas pre) c <> Raise KeyboardInterrupt.
Proof.
  intros Ht -> Hc. rewrite interrumpida_app in Ht. cbn [interrumpida] in Ht.
  rewrite Hc in Ht. cbn [es_interrupcion] in Ht.
  now rewrite orb_true_l, orb_true_r in Ht.
Qed.

Section Transparente.

Context {A B : Type} (s : sistema).

Lemma transparente_ret (a : A) : transparente s (mret a : M A).
Proof. intros w. exists []. split; [now rewrite app_nil_r|reflexivity]. Qed.

Lemma transparente_raise (e : exn) :
  e <> KeyboardInterrupt -> transparente s (raise e : M A).
Proof.
  intros He w. exists []. split; [now rewrite app_nil_r|].
  unfold fiel, raise. cbn [fst]. destruct e; try reflexivity. congruence.
Qed.

Lemma fiel_app (h : list llamada) (n1 n2 : list evento) (r : result B) :
  interrumpida s h n1 = false ->
  fiel s (h ++ llamadas n1) n2 r ->
  fiel s h (n1 ++ n2) r.
Proof.
  intros H1 H2. unfold fiel in *. destruct (es_interrupcion r).
  - destruct H2 as (pre & c & -> & Hpre & Hc).
    exists (n1 ++ pre), c. split; [now rewrite app_assoc|].
    split; [now rewrite interrumpida_app, H1, Hpre|].
    now rewrite llamadas_app, app_assoc.
  - now rewrite interrumpida_app, H1, H2.
Qed.

Lemma transparente_bind (m : M A) (k : A -> M B) :
  transparente s m -> (forall a, transparente s (k a)) -> transparente s (m ≫= k).
Proof.
  intros Hm Hk w. unfold mbind, M_bind.
  destruct (Hm w) as (n1 & Ht1 & Hf1).
  destruct (m w) as [[a|e] w1]; cbn [fst snd] in *.
  - destruct (Hk a w1) as (n2 & Ht2 & Hf2).
    exists (n1 ++ n2). split; [now rewrite Ht2, Ht1, app_assoc|].
    apply fiel_app; [exact Hf1|]. now rewrite <- llamadas_app, <- Ht1.
  - exists n1. split; [exact Ht1|]. exact Hf1.
Qed.

End Transparente.

Lemma transparente_try {A : Type} (s : sistema) (m : M A) (h : exn -> option (M A)) :
  transparente s m ->
  h KeyboardInterrupt = None ->
  (forall e k, h e = Some k -> transparente s k) ->
  transparente s (try_except m h).
Proof.
  intros Hm Hki Hh w. unfold try_except.
  destruct (Hm w) as (n1 & Ht1 & Hf1).
  destruct (m w) as [[a|e] w1]; cbn [fst snd] in *.
  - exists n1. split; [exact Ht1|exact Hf1].
  - destruct (h e) as [k|] eqn:He.
    + assert (Hne : e <> KeyboardInterrupt) by congruence.
      destruct (Hh e k He w1) as (n2 & Ht2 & Hf2).
      exists (n1 ++ n2). split; [now rewrite Ht2, Ht1, app_assoc|].
      apply fiel_app.
      * unfold fiel in Hf1. destruct e; try exact Hf1. congruence.
      * now rewrite <- llamadas_app, <- Ht1.
    + exists n1. split; [exact Ht1|exact Hf1].
Qed.

Lemma transparente_print (s : sistema) (t : string) : transparente s (print t).
Proof. intros w. exists [Print stdout t]. split; reflexivity. Qed.

Lemma transparente_eprint (s : sistema) (t : string) : transparente s (eprint t).
Proof. intros w. exists [Print stderr t]. split; reflexivity. Qed.

Lemma transparente_item (s : sistema) (d : gmap string value) (k : string) :
  transparente s (item d k).
Proof.
  unfold item. destruct (d !! k); [apply transparente_ret|now apply transparente_raise].
Qed.

Lemma transparente_guardar (s : sistema) (k v : string) : transparente s (guardar k v).
Proof. intros w. exists []. split; [simpl; now rewrite app_nil_r|reflexivity]. Qed.

Lemma transparente_recursos_vacios (s : sistema) : transparente s recursos_vacios.
Proof. intros w. exists []. split; [simpl; now rewrite app_nil_r|reflexivity]. Qed.

Lemma transparente_recursos_items (s : sistema) : transparente s recursos_items.
Proof. intros w. exists []. split; [simpl; now rewrite app_nil_r|reflexivity]. Qed.

Lemma transparente_llamar (s : sistema) (c : llamada) : transparente s (llamar s c).
Proof.
  intros w. exists [Call c]. split; [reflexivity|].
  unfold llamar, fiel. cbn [fst interrumpida].
  destruct (es_interrupcion (nube s (llamadas (traza w)) c)) eqn:He.
  - exists [], c. split; [reflexivity|]. split; [reflexivity|].
    cbn [llamadas]. rewrite app_nil_r.
    destruct (nube s (llamadas (traza w)) c) as [r|[]]; try discriminate He. reflexivity.
  - reflexivity.
Qed.

Lemma transparente_para_cada {A : Type} (s : sistema) (l : list A) (f : A -> M unit) :
  (forall x, transparente s (f x)) -> transparente s (para_cada l f).
Proof.
  intros Hf. induction l as [|x l IH]; cbn [para_cada].
  - apply transparente_ret.
  - apply transparente_bind; [apply Hf|intros _; exact IH].
Qed.

(** Decompose a program into its operations. *)
Ltac transparentar :=
  repeat first
    [ assumption
    | match goal with H : forall x, transparente _ _ |- _ => apply H end
    | apply transparente_ret | apply transparente_print | apply transparente_eprint
    | apply transparente_llamar | apply transparente_item | apply transparente_guardar
    | apply transparente_recursos_vacios | apply transparente_recursos_items
    | apply transparente_raise; discriminate
    | apply transparente_bind; [|intros ?]
    | apply transparente_para_cada; intros ?
    | apply transparente_try;
      [|reflexivity
       |let e := fresh "e" in let k := fresh "k" in let H := fresh "H" in
        intros e k H; destruct e; cbn [es_Exception] in H; simplify_eq]
    | match goal with
      | |- transparente _ (if ?b then _ else _) => destruct b
      | |- transparente _ (match ?r with _ => _ end) => destruct r
      end ].

Lemma transparente_crear_security_group s self : transparente s (crear_security_group s self).
Proof. unfold crear_security_group, get_GroupId, get_first_SecurityGroup. transparentar. Qed.

Lemma transparente_crear_bucket_s3_backup s self :
  transparente s (crear_bucket_s3_backup s self).
Proof. unfold crear_bucket_s3_backup. transparentar. Qed.

Lemma transparente_crear_instancia_ec2 s self sg_id :
  transparente s (crear_instancia_ec2 s self sg_id).
Proof. unfold crear_instancia_ec2, get_first_Instance. transparentar. Qed.

Lemma transparente_crear_base_datos_rds s self : transparente s (crear_base_datos_rds s self).
Proof. unfold crear_base_datos_rds. transparentar. Qed.

Lemma transparente_desplegar s self : transparente s (desplegar s self).
Proof.
  pose proof (transparente_crear_security_group s self).
  pose proof (transparente_crear_bucket_s3_backup s self).
  pose proof (transparente_crear_instancia_ec2 s self).
  pose proof (transparente_crear_base_datos_rds s self).
  unfold desplegar, desplegar_cabecera, desplegar_try, desplegar_except, resumen,
    paso_1, paso_2, paso_3, paso_4.
  transparentar.
Qed.


Lemma transparente_main_try s config_arg : transparente s (main_try s config_arg).
Proof.
  pose proof (transparente_desplegar s).
  unfold main_try, __init__, _cargar_configuracion, _validar_variables_entorno,
    json_load, dict_update.
  transparentar.
Qed.

Lemma cabecera_recursos (self : DespliegueRH) (w w1 : mundo) :
  desplegar_cabecera self w = (Ret tt, w1) -> recursos_creados w1 = [].
Proof.
  unfold desplegar_cabecera. abrir.
  destruct (config self !! "region"); cbn beta iota; [|discriminate].
  destruct (config self !! "environment"); cbn beta iota; [|discriminate].
  destruct (config self !! "app_name"); cbn beta iota; [|discriminate].
  intros [= <-]. reflexivity.
Qed.

Lemma conserva_resumen : conserva resumen.
Proof.
  unfold resumen.
  assert (Hitems : conserva recursos_items) by (intros w; reflexivity).
  assert (Hpara : forall (l : list (string * string)) f,
            (forall x, conserva (f x)) -> conserva (para_cada l f)).
  { intros l f Hf. induction l as [|x l IH]; cbn [para_cada].
    - apply conserva_ret.
    - apply conserva_bind; [apply Hf|intros _; exact IH]. }
  repeat first [ exact Hitems | apply conserva_print
               | apply Hpara; intros ? | apply conserva_bind; [|intros ?] ].
Qed.

(** A deployment that returns has recorded the four resources. *)
Lemma desplegar_completo (s : sistema) (self : DespliegueRH) (w wf : mundo) :
  desplegar s self w = (Ret tt, wf) -> map fst (recursos_creados wf) = etiquetas.
Proof.
  unfold desplegar. unfold mbind at 1, M_bind at 1.
  destruct (desplegar_cabecera self w) as [[[]|e] w0] eqn:Hcab; [|discriminate].
  apply cabecera_recursos in Hcab. unfold try_except.
  destruct (desplegar_try s self w0) as [[[]|e] w5] eqn:Htry.
  - intros [= <-]. revert Htry. unfold desplegar_try, mbind, M_bind.
    pose proof (paso_recursos (nl +:+ "[1/4] Creando Security Group...")
                  "security_group" _ w0 (conserva_crear_security_group s self)) as R1.
    fold (paso_1 s self) in R1.
    destruct (paso_1 s self w0) as [[sg|e] w1]; [|discriminate].
    pose proof (paso_recursos (nl +:+ "[2/4] Creando bucket S3 para backups...")
                  "s3_bucket" _ w1 (conserva_crear_bucket_s3_backup s self)) as R2.
    fold (paso_2 s self) in R2.
    destruct (paso_2 s self w1) as [[b|e] w2]; [|discriminate].
    pose proof (paso_recursos (nl +:+ "[3/4] Creando instancia EC2...")
                  "ec2_instance" _ w2 (conserva_crear_instancia_ec2 s self sg)) as R3.
    change (match paso_3 s self sg w2 with
            | (Ret x, w') => recursos_creados w' = dict_set (recursos_creados w2) "ec2_instance" x
            | (Raise _, w') => recursos_creados w' = recursos_creados w2
            end) in R3.
    destruct (paso_3 s self sg w2) as [[i|e] w3]; [|discriminate].
    pose proof (paso_recursos (nl +:+ "[4/4] Creando base de datos RDS...")
                  "rds_instance" _ w3 (conserva_crear_base_datos_rds s self)) as R4.
    fold (paso_4 s self) in R4.
    destruct (paso_4 s self w3) as [[d|e] w4]; [|discriminate].
    intros Hres. pose proof (conserva_resumen w4) as R5. rewrite Hres in R5. cbn [snd] in R5.
    rewrite R5, R4, R3, R2, R1, Hcab. reflexivity.
  - destruct (es_Exception e); [|discriminate].
    unfold desplegar_except. abrir. discriminate.
Qed.

(** The last event of [t ++ [Call c]] is its only interrupted call. *)
Lemma unica_interrupcion (s : sistema) (t cola pre post : list evento) (c0 c : llamada) :
  interrumpida s [] t = false ->
  interrumpida s (llamadas (t ++ [Call c0])) cola = false ->
  t ++ Call c0 :: cola = pre ++ Call c :: post ->
  nube s (llamadas pre) c = Raise KeyboardInterrupt ->
  pre = t /\ c = c0 /\ post = cola.
Proof.
  intros Ht Hcola Heq Hc.
  apply app_eq_app in Heq. destruct Heq as [l [[Hp Hl]|[Hp Hl]]].
  - destruct l as [|ev l]; cbn [app] in Hl; simplify_eq.
    + now rewrite app_nil_r.
    + exfalso. now apply (interrumpida_llamada s [] _ pre l c Ht eq_refl).
  - destruct l as [|ev l]; cbn [app] in Hl; simplify_eq.
    + now rewrite app_nil_r.
    + exfalso. apply (interrumpida_llamada s _ _ l post c Hcola eq_refl).
      rewrite <- llamadas_app, <- app_assoc. exact Hc.
Qed.

(** C9.  Interrupts and the exit status.  If any call of a run of the
    process was answered by a [KeyboardInterrupt], the exit status is 1
    and what follows that call in the trace is the line that reports the
    cancellation, on the error stream, and nothing else: no later call,
    and none of the lines that report a provisioning fault.  If the
    [try] of [main] returns, the exit status is 0 and the four resources
    are recorded. *)
Theorem interrupcion_y_estado (s : sistema) (config_arg : option string) :
  (forall pre c post,
     traza (proceso s config_arg).2 = pre ++ Call c :: post ->
     nube s (llamadas pre) c = Raise KeyboardInterrupt ->
     (proceso s config_arg).1 = 1 /\
     post = [Print stderr (nl +:+ nl +:+ "⚠ Despliegue cancelado por el usuario")]) /\
  (forall wf,
     main_try s config_arg mundo_inicial = (Ret tt, wf) ->
     proceso s config_arg = (0, wf) /\
     map fst (recursos_creados wf) = etiquetas).
Proof.
  split.
  - destruct (transparente_main_try s config_arg mundo_inicial) as (nuevos & Ht & Hf).
    cbn [traza mundo_inicial app llamadas] in Ht, Hf.
    unfold proceso, main, try_except.
    destruct (main_try s config_arg mundo_inicial) as [[[]|e] w1]; cbn [fst snd] in *.
    + intros pre c post Heq Hc. exfalso. rewrite Ht in Heq.
      exact (interrumpida_llamada s [] _ pre post c Hf Heq Hc).
    + unfold fiel in Hf.
      destruct e; cbn [es_interrupcion] in Hf; abrir; cbn [fst snd traza emitir exit_status];
        rewrite Ht; intros pre c post Heq Hc.
      6: { destruct Hf as (t & c0 & -> & Hpre & Hc0).
           rewrite <- app_assoc in Heq. cbn [app] in Heq.
           destruct (unica_interrupcion s t
                       [Print stderr (nl +:+ nl +:+ "⚠ Despliegue cancelado por el usuario")]
                       pre post c0 c Hpre eq_refl Heq Hc)
             as (_ & _ & <-).
           split; reflexivity. }
      all: exfalso.
      all: try (refine (interrumpida_llamada s [] _ pre post c _ Heq Hc);
                rewrite interrumpida_app, Hf; reflexivity).
      exact (interrumpida_llamada s [] _ pre post c Hf Heq Hc).
  - intros wf Hm. split.
    + unfold proceso, main, try_except. rewrite Hm. reflexivity.
    + revert Hm. unfold main_try. unfold mbind at 1, M_bind at 1.
      destruct (__init__ s config_arg mundo_inicial) as [[self|e] w0]; [|discriminate].
      apply desplegar_completo.
Qed.


(** ** The statements on concrete runs *)

(** A second run of [crear_base_datos_rds] finds the instance of the
    first; a provider without quota makes it fail. *)
Lemma crear_base_datos_rds_ya_existe_witness :
  let s := maquina nube_en_memoria in
  let w := (crear_base_datos_rds s self_default mundo_inicial).2 in
  let c := peticion_base_datos "app-rh-devops-db" (VInt 20) (VStr "db.t3.micro")
             (Some "s3cr3t0") (VStr "production") in
  (nube s (llamadas (traza w)) c
     = Raise (ClientError "DBInstanceAlreadyExists" "DB instance already exists") /\
   crear_base_datos_rds s self_default w
     = (Ret "app-rh-devops-db",
        tras w [Call c; Print stdout "⚠ Instancia RDS app-rh-devops-db ya existe"])) /\
  (let s' := maquina (con_fallo sin_cuota_rds nube_en_memoria) in
   nube s' [] c = Raise (ClientError "InstanceQuotaExceeded" "Instance quota exceeded") /\
   crear_base_datos_rds s' self_default mundo_inicial
     = (Raise (ClientError "InstanceQuotaExceeded" "Instance quota exceeded"),
        tras mundo_inicial
          [Call c; Print stderr "✗ Error creando instancia RDS: Instance quota exceeded"])).
Proof.
  intros s w c. split.
  - assert (Hn : nube s (llamadas (traza w)) c
                 = Raise (ClientError "DBInstanceAlreadyExists" "DB instance already exists"))
      by (vm_compute; reflexivity).
    split; [exact Hn|].
    exact (proj1 (crear_base_datos_rds_ya_existe s self_default w
                    (VStr "app-rh-devops") (VInt 20) (VStr "db.t3.micro") (VStr "production")
                    eq_refl eq_refl eq_refl eq_refl) _ Hn).
  - intros s'.
    assert (Hn : nube s' [] c
                 = Raise (ClientError "InstanceQuotaExceeded" "Instance quota exceeded"))
      by reflexivity.
    split; [exact Hn|].
    refine (proj2 (crear_base_datos_rds_ya_existe s' self_default mundo_inicial
                     (VStr "app-rh-devops") (VInt 20) (VStr "db.t3.micro") (VStr "production")
                     eq_refl eq_refl eq_refl eq_refl) _ _ _ Hn).
    discriminate.
Defined.



(** The rules are attached in the first run and not in the second. *)
Lemma reglas_solo_al_crear_witness :
  let s := maquina nube_en_memoria in
  let w := (crear_security_group s self_default mundo_inicial).2 in
  In (Call (authorize_security_group_ingress "sg-0" reglas_entrada)) (traza w) /\
  exists nuevos,
    traza (crear_security_group s self_default w).2 = traza w ++ nuevos /\
    llamadas nuevos
      = [peticion_security_group "app-rh-devops-sg"
           "Security Group para aplicación de RH - production" (VStr "production");
         describe_security_groups ["app-rh-devops-sg"]] /\
    (forall g perms, ~ In (Call (authorize_security_group_ingress g perms)) nuevos).
Proof.
  intros s w. split; [vm_compute; tauto|].
  destruct (reglas_solo_al_crear s self_default w (VStr "app-rh-devops") (VStr "production")
              eq_refl eq_refl) as (nuevos & Ht & _ & Hdup).
  exists nuevos. split; [exact Ht|].
  destruct (Hdup "The security group 'app-rh-devops-sg' already exists") as (Hll & Hno & _);
    [vm_compute; reflexivity|].
  split; [exact Hll|exact Hno].
Defined.

(** The bucket in [us-east-1] and in [eu-central-1]. *)
Lemma crear_bucket_s3_backup_llamadas_witness :
  let s := maquina nube_en_memoria in
  let b := "app-rh-devops-backups-1700000000" in
  llamadas (traza (crear_bucket_s3_backup s self_default mundo_inicial).2)
    = create_bucket b None :: configurar_bucket b (VStr "production") /\
  llamadas (traza (crear_bucket_s3_backup s self_frankfurt mundo_inicial).2)
    = create_bucket b (Some (VStr "eu-central-1")) :: configurar_bucket b (VStr "production").
Proof.
  intros s b. split.
  - destruct (crear_bucket_s3_backup_llamadas s self_default mundo_inicial
                (VStr "app-rh-devops") (VStr "us-east-1") (VStr "production")
                eq_refl eq_refl eq_refl) as (q & n & Hq & _ & _ & _ & _ & Hok).
    rewrite (Hq eq_refl) in Hok. rewrite Hok.
    + vm_compute. reflexivity.
    + intros i c Hc. eexists. vm_compute in Hc.
      do 5 (destruct i as [|i]; [injection Hc as <-; vm_compute; reflexivity|]).
      discriminate Hc.
  - destruct (crear_bucket_s3_backup_llamadas s self_frankfurt mundo_inicial
                (VStr "app-rh-devops") (VStr "eu-central-1") (VStr "production")
                eq_refl eq_refl eq_refl) as (q & n & _ & Hq & _ & _ & _ & Hok).
    rewrite Hq in Hok by discriminate. rewrite Hok.
    + vm_compute. reflexivity.
    + intros i c Hc. eexists. vm_compute in Hc.
      do 5 (destruct i as [|i]; [injection Hc as <-; vm_compute; reflexivity|]).
      discriminate Hc.
Defined.


(** A file that overrides the region twice, sets the storage and names
    a key the script does not read. *)
Lemma cargar_configuracion_mezcla_witness :
  let s := maquina_con_archivo (Json (Pares pares_ejemplo)) in
  "config.json" <> "" /\
  archivos s !! "config.json" = Some (Json (Pares pares_ejemplo)) /\
  (exists cfg,
     _cargar_configuracion s (Some "config.json") mundo_inicial = (Ret cfg, mundo_inicial) /\
     cfg !! "region" = Some (VStr "sa-east-1") /\
     cfg !! "db_allocated_storage" = Some (VInt 50) /\
     cfg !! "app_name" = Some (VStr "app-rh-devops") /\
     cfg !! "ami_id" = config_default !! "ami_id") /\
  proceso (con_archivo s "config.json" (Json (Pares (conocidas pares_ejemplo))))
    (Some "config.json")
  = proceso s (Some "config.json") /\
  _cargar_configuracion s (Some "otro.json") mundo_inicial = (Ret config_default, mundo_inicial).
Proof.
  intros s.
  assert (Hr : "config.json" <> "") by discriminate.
  assert (Hf : archivos s !! "config.json" = Some (Json (Pares pares_ejemplo))) by reflexivity.
  destruct (cargar_configuracion_mezcla s mundo_inicial) as (Hobj & _ & _ & Haus).
  destruct (Hobj "config.json" pares_ejemplo Hr Hf) as (Hcarga & Hk & _ & Hproc).
  split; [exact Hr|]. split; [exact Hf|]. split; [|split].
  - exists (update config_default pares_ejemplo). split; [exact Hcarga|].
    rewrite !Hk. repeat split.
  - exact Hproc.
  - apply Haus. reflexivity.
Defined.

(** A file cut short. *)
Lemma configuracion_malformada_witness :
  let s := maquina_con_archivo (Malformado "Expecting value: line 1 column 12 (char 11)") in
  "config.json" <> "" /\
  archivos s !! "config.json" = Some (Malformado "Expecting value: line 1 column 12 (char 11)") /\
  proceso s (Some "config.json")
  = (1, tras mundo_inicial
          [Print stderr ("Error: Archivo de configuración inválido: " +:+
                         "Expecting value: line 1 column 12 (char 11)")]).
Proof.
  intros s.
  assert (Hr : "config.json" <> "") by discriminate.
  assert (Hf : archivos s !! "config.json"
               = Some (Malformado "Expecting value: line 1 column 12 (char 11)"))
    by reflexivity.
  split; [exact Hr|]. split; [exact Hf|].
  exact (proj1 (proj2 (configuracion_malformada s "config.json" _ Hr Hf))).
Defined.

(** With only the database password set, the two credentials are
    reported. *)
Lemma validar_informa_todas_witness :
  let s := maquina_sin_credenciales in
  let ausentes := [("AWS_ACCESS_KEY_ID", "AWS Access Key ID");
                   ("AWS_SECRET_ACCESS_KEY", "AWS Secret Access Key")] in
  ausentes <> [] /\
  incl ausentes variables_requeridas /\
  (forall var descripcion, In (var, descripcion) ausentes -> environ s !! var = None) /\
  _validar_variables_entorno s mundo_inicial
  = (Raise (SystemExit 1),
     tras mundo_inicial
       [Print stderr "Error: Las siguientes variables de entorno deben estar definidas:";
        Print stderr "  - AWS_ACCESS_KEY_ID (AWS Access Key ID)";
        Print stderr "  - AWS_SECRET_ACCESS_KEY (AWS Secret Access Key)";
        Print stderr (nl +:+ "Ejemplo:");
        Print stderr "  export RDS_ADMIN_PASSWORD='tu_password_seguro'"]) /\
  (proceso s None).1 = 1 /\
  llamadas (traza (proceso s None).2) = [].
Proof.
  intros s ausentes.
  assert (H1 : ausentes <> []) by discriminate.
  assert (H2 : incl ausentes variables_requeridas).
  { intros x Hx. simpl in Hx. simpl. tauto. }
  assert (H3 : forall var descripcion, In (var, descripcion) ausentes -> environ s !! var = None).
  { intros var d Hx. simpl in Hx. destruct Hx as [Hx|[Hx|[]]]; injection Hx as <- <-;
      reflexivity. }
  destruct (validar_informa_todas s ausentes H1 H2 H3) as (_ & Hval & Hproc).
  split; [exact H1|]. split; [exact H2|]. split; [exact H3|].
  split; [rewrite Hval; vm_compute; reflexivity|].
  exact (Hproc None).
Defined.

(** Ctrl-C while waiting for the instance; and a run that nothing
    disturbs. *)
Lemma interrupcion_y_estado_witness :
  let s := maquina (con_fallo ctrl_c_en_espera nube_en_memoria) in
  (exists pre,
     traza (proceso s None).2
     = pre ++ [Call (wait_instance_running ["i-11"]);
               Print stderr (nl +:+ nl +:+ "⚠ Despliegue cancelado por el usuario")] /\
     nube s (llamadas pre) (wait_instance_running ["i-11"]) = Raise KeyboardInterrupt) /\
  (proceso s None).1 = 1 /\
  (proceso (maquina nube_en_memoria) None).1 = 0 /\
  recursos_creados (proceso (maquina nube_en_memoria) None).2
  = [("security_group", "sg-0"); ("s3_bucket", "app-rh-devops-backups-1700000000");
     ("ec2_instance", "i-11"); ("rds_instance", "app-rh-devops-db")].
Proof.
  intros s.
  destruct (interrupcion_y_estado s None) as [Hint _].
  destruct (interrupcion_y_estado (maquina nube_en_memoria) None) as [_ Hok].
  assert (Ht : exists pre,
             traza (proceso s None).2
             = pre ++ Call (wait_instance_running ["i-11"])
                 :: [Print stderr (nl +:+ nl +:+ "⚠ Despliegue cancelado por el usuario")] /\
             nube s (llamadas pre) (wait_instance_running ["i-11"]) = Raise KeyboardInterrupt).
  { eexists (removelast (removelast (traza (proceso s None).2))).
    split; vm_compute; reflexivity. }
  destruct Ht as (pre & Ht & Hki).
  split; [exists pre; split; [exact Ht|exact Hki]|].
  split; [exact (proj1 (Hint pre _ _ Ht Hki))|].
  destruct (Hok (main_try (maquina nube_en_memoria) None mundo_inicial).2) as [Hp _];
    [vm_compute; reflexivity|].
  rewrite Hp. split; [reflexivity|]. vm_compute. reflexivity.
Defined.

(** * Further properties *)

(** ** The compute instance *)

(** X1.  [crear_instancia_ec2] returns an instance only after it runs.
    When the launch is answered with instances and the wait for the
    first of them returns, the method returns that identifier; the
    launch request carries the rule set the method was given.  And it
    returns in no other case: an identifier it returns is the first of
    the launch, and the wait for it has returned. *)
Theorem crear_instancia_ec2_lanza (s : sistema) (self : DespliegueRH) (sg_id : string)
    (w : mundo) (ami_id instance_type app_name environment : value) :
  config self !! "ami_id" = Some ami_id ->
  config self !! "instance_type" = Some instance_type ->
  config self !! "app_name" = Some app_name ->
  config self !! "environment" = Some environment ->
  let c := peticion_instancia ami_id instance_type app_name environment sg_id in
  (forall i otros r,
     nube s (llamadas (traza w)) c = Ret (RInstances (i :: otros)) ->
     nube s (llamadas (traza w) ++ [c]) (wait_instance_running [i]) = Ret r ->
     crear_instancia_ec2 s self sg_id w =
       (Ret i,
        tras w [Call c;
                Print stdout ("✓ Instancia EC2 creada: " +:+ i);
                Print stdout "Esperando a que la instancia esté lista...";
                Call (wait_instance_running [i]);
                Print stdout ("✓ Instancia " +:+ i +:+ " está en estado 'running'")]))
  /\
  (forall i,
     (crear_instancia_ec2 s self sg_id w).1 = Ret i ->
     exists otros r,
       nube s (llamadas (traza w)) c = Ret (RInstances (i :: otros)) /\
       nube s (llamadas (traza w) ++ [c]) (wait_instance_running [i]) = Ret r).
Proof.
  intros Hami Htipo Happ Henv c. subst c. split.
  - intros i otros r Hrun Hwait.
    unfold crear_instancia_ec2. abrir. rewrite Hami, Htipo, Happ, Henv. cbn beta iota zeta.
    rewrite Hrun. cbn beta iota zeta. ordenar. rewrite Hwait. cbn beta iota zeta. now ordenar.
  - intros i. remember (crear_instancia_ec2 s self sg_id w) as run eqn:Hrun. revert Hrun.
    unfold crear_instancia_ec2. abrir. rewrite Hami, Htipo, Happ, Henv. cbn beta iota zeta.
    por_casos; intros -> Hi; cbn [fst] in Hi; simplify_eq. eauto.
Qed.

Lemma crear_instancia_ec2_lanza_witness :
  let s := maquina nube_en_memoria in
  let c := peticion_instancia (VStr "ami-06b21ccaeff8cd686") (VStr "t2.micro")
             (VStr "app-rh-devops") (VStr "production") "sg-0" in
  nube s [] c = Ret (RInstances ["i-0"]) /\
  nube s [c] (wait_instance_running ["i-0"]) = Ret RNada /\
  (crear_instancia_ec2 s self_default "sg-0" mundo_inicial).1 = Ret "i-0".
Proof.
  intros s c.
  assert (H1 : nube s (llamadas (traza mundo_inicial)) c = Ret (RInstances ["i-0"]))
    by reflexivity.
  assert (H2 : nube s (llamadas (traza mundo_inicial) ++ [c]) (wait_instance_running ["i-0"])
               = Ret RNada) by reflexivity.
  split; [exact H1|]. split; [exact H2|].
  rewrite (proj1 (crear_instancia_ec2_lanza s self_default "sg-0" mundo_inicial _ _ _ _
                    eq_refl eq_refl eq_refl eq_refl) "i-0" [] RNada H1 H2).
  reflexivity.
Defined.

(** X2.  [crear_instancia_ec2] when a call raises.  The exception is the
    one the method raises, from the launch or from the wait, and no call
    follows it.  Only a [ClientError] is reported by the method, on the
    error stream; any other exception, such as the error of a waiter
    that gave up, leaves it without a line. *)
Theorem crear_instancia_ec2_falla (s : sistema) (self : DespliegueRH) (sg_id : string)
    (w : mundo) (ami_id instance_type app_name environment : value) (e : exn) :
  config self !! "ami_id" = Some ami_id ->
  config self !! "instance_type" = Some instance_type ->
  config self !! "app_name" = Some app_name ->
  config self !! "environment" = Some environment ->
  let c := peticion_instancia ami_id instance_type app_name environment sg_id in
  (nube s (llamadas (traza w)) c = Raise e ->
   crear_instancia_ec2 s self sg_id w =
     (Raise e, tras w (Call c :: queja "✗ Error creando instancia EC2: " e)))
  /\
  (forall i otros,
     nube s (llamadas (traza w)) c = Ret (RInstances (i :: otros)) ->
     nube s (llamadas (traza w) ++ [c]) (wait_instance_running [i]) = Raise e ->
     crear_instancia_ec2 s self sg_id w =
       (Raise e,
        tras w ([Call c;
                 Print stdout ("✓ Instancia EC2 creada: " +:+ i);
                 Print stdout "Esperando a que la instancia esté lista...";
                 Call (wait_instance_running [i])]
                ++ queja "✗ Error creando instancia EC2: " e))).
Proof.
  intros Hami Htipo Happ Henv c. subst c. split.
  - intros Hrun.
    unfold crear_instancia_ec2. abrir. rewrite Hami, Htipo, Happ, Henv. cbn beta iota zeta.
    rewrite Hrun. cbn beta iota zeta. destruct e; cbn [queja str_exn]; now ordenar.
  - intros i otros Hrun Hwait.
    unfold crear_instancia_ec2. abrir. rewrite Hami, Htipo, Happ, Henv. cbn beta iota zeta.
    rewrite Hrun. cbn beta iota zeta. ordenar. rewrite Hwait. cbn beta iota zeta.
    destruct e; cbn [queja str_exn app]; now ordenar.
Qed.

(** X3.  An answer to the launch without instances: the method raises
    [IndexError] at once; it prints nothing and does not wait. *)
Theorem crear_instancia_ec2_sin_instancias (s : sistema) (self : DespliegueRH) (sg_id : string)
    (w : mundo) (ami_id instance_type app_name environment : value) :
  config self !! "ami_id" = Some ami_id ->
  config self !! "instance_type" = Some instance_type ->
  config self !! "app_name" = Some app_name ->
  config self !! "environment" = Some environment ->
  let c := peticion_instancia ami_id instance_type app_name environment sg_id in
  nube s (llamadas (traza w)) c = Ret (RInstances []) ->
  crear_instancia_ec2 s self sg_id w = (Raise IndexError, tras w [Call c]).
Proof.
  intros Hami Htipo Happ Henv c Hrun. subst c.
  unfold crear_instancia_ec2. abrir. rewrite Hami, Htipo, Happ, Henv. cbn beta iota zeta.
  rewrite Hrun. cbn beta iota zeta. now ordenar.
Qed.

Lemma crear_instancia_ec2_falla_witness :
  let c := peticion_instancia (VStr "ami-06b21ccaeff8cd686") (VStr "t2.micro")
             (VStr "app-rh-devops") (VStr "production") "sg-0" in
  let s1 := maquina (con_fallo sin_capacidad nube_en_memoria) in
  let s2 := maquina (con_fallo espera_agotada nube_en_memoria) in
  let e1 := ClientError "InsufficientInstanceCapacity" "Insufficient capacity" in
  let e2 := OtherError "Waiter InstanceRunning failed: Max attempts exceeded" in
  nube s1 [] c = Raise e1 /\
  crear_instancia_ec2 s1 self_default "sg-0" mundo_inicial
    = (Raise e1,
       tras mundo_inicial
         [Call c; Print stderr "✗ Error creando instancia EC2: Insufficient capacity"]) /\
  nube s2 [] c = Ret (RInstances ["i-0"]) /\
  nube s2 [c] (wait_instance_running ["i-0"]) = Raise e2 /\
  crear_instancia_ec2 s2 self_default "sg-0" mundo_inicial
    = (Raise e2,
       tras mundo_inicial
         [Call c;
          Print stdout "✓ Instancia EC2 creada: i-0";
          Print stdout "Esperando a que la instancia esté lista...";
          Call (wait_instance_running ["i-0"])]).
Proof.
  intros c s1 s2 e1 e2.
  assert (H1 : nube s1 (llamadas (traza mundo_inicial)) c = Raise e1) by reflexivity.
  assert (H2 : nube s2 (llamadas (traza mundo_inicial)) c = Ret (RInstances ["i-0"]))
    by reflexivity.
  assert (H3 : nube s2 (llamadas (traza mundo_inicial) ++ [c]) (wait_instance_running ["i-0"])
               = Raise e2) by reflexivity.
  split; [exact H1|].
  split; [exact (proj1 (crear_instancia_ec2_falla s1 self_default "sg-0" mundo_inicial
                          _ _ _ _ e1 eq_refl eq_refl eq_refl eq_refl) H1)|].
  split; [exact H2|]. split; [exact H3|].
  exact (proj2 (crear_instancia_ec2_falla s2 self_default "sg-0" mundo_inicial
                  _ _ _ _ e2 eq_refl eq_refl eq_refl eq_refl) "i-0" [] H2 H3).
Defined.

Lemma crear_instancia_ec2_sin_instancias_witness :
  let s := maquina nube_vacia in
  let c := peticion_instancia (VStr "ami-06b21ccaeff8cd686") (VStr "t2.micro")
             (VStr "app-rh-devops") (VStr "production") "sg-0" in
  nube s [] c = Ret (RInstances []) /\
  crear_instancia_ec2 s self_default "sg-0" mundo_inicial
    = (Raise IndexError, tras mundo_inicial [Call c]).
Proof.
  intros s c.
  assert (H1 : nube s (llamadas (traza mundo_inicial)) c = Ret (RInstances [])) by reflexivity.
  split; [exact H1|].
  exact (crear_instancia_ec2_sin_instancias s self_default "sg-0" mundo_inicial
           _ _ _ _ eq_refl eq_refl eq_refl eq_refl H1).
Defined.


(** ** The network rule set, further *)

(** X4.  Where the identifier [crear_security_group] returns comes
    from.  With any provider, a creation that returns [g] followed by an
    attachment that returns makes the method return [g], with nothing on
    the error stream.  And the method returns in three cases only: that
    one; a creation refused as a duplicate, followed by a lookup whose
    first rule set it returns; and an attachment refused as a
    duplicate, followed by such a lookup. *)
Theorem crear_security_group_nuevo (s : sistema) (self : DespliegueRH) (w : mundo)
    (app_name environment : value) :
  config self !! "app_name" = Some app_name ->
  config self !! "environment" = Some environment ->
  let sg_name := py_str app_name +:+ "-sg" in
  let c := peticion_security_group sg_name
             ("Security Group para aplicación de RH - " +:+ py_str environment) environment in
  let autorizar g := authorize_security_group_ingress g reglas_entrada in
  let h := llamadas (traza w) in
  (forall g r,
     nube s h c = Ret (RGroupId g) ->
     nube s (h ++ [c]) (autorizar g) = Ret r ->
     crear_security_group s self w =
       (Ret g,
        tras w [Call c;
                Print stdout ("✓ Security Group creado: " +:+ g);
                Call (autorizar g);
                Print stdout ("✓ Reglas de seguridad configuradas para " +:+ g)]))
  /\
  (forall g,
     (crear_security_group s self w).1 = Ret g ->
     (nube s h c = Ret (RGroupId g) /\ exists r, nube s (h ++ [c]) (autorizar g) = Ret r)
     \/
     (exists texto otros,
        nube s h c = Raise (ClientError "InvalidGroup.Duplicate" texto) /\
        nube s (h ++ [c]) (describe_security_groups [sg_name])
          = Ret (RSecurityGroups (g :: otros)))
     \/
     (exists g0 texto otros,
        nube s h c = Ret (RGroupId g0) /\
        nube s (h ++ [c]) (autorizar g0) = Raise (ClientError "InvalidGroup.Duplicate" texto) /\
        nube s (h ++ [c; autorizar g0]) (describe_security_groups [sg_name])
          = Ret (RSecurityGroups (g :: otros)))).
Proof.
  intros Ha He sg_name c autorizar h. subst sg_name c autorizar h. split.
  - intros g r Hc Hau.
    unfold crear_security_group. abrir. rewrite Ha, He. cbn beta iota zeta.
    rewrite Hc. cbn beta iota zeta. ordenar. rewrite Hau. cbn beta iota zeta. now ordenar.
  - intros g. remember (crear_security_group s self w) as run eqn:Hrun. revert Hrun.
    unfold crear_security_group. abrir. rewrite Ha, He. cbn beta iota zeta.
    por_casos; intros -> Hg; cbn [fst] in Hg; simplify_eq.
    + left. eauto.
    + right. right. eauto 10.
    + right. left. eauto.
Qed.

Lemma crear_security_group_nuevo_witness :
  let s := maquina nube_en_memoria in
  let c := peticion_security_group "app-rh-devops-sg"
             "Security Group para aplicación de RH - production" (VStr "production") in
  nube s [] c = Ret (RGroupId "sg-0") /\
  nube s [c] (authorize_security_group_ingress "sg-0" reglas_entrada) = Ret RNada /\
  (crear_security_group s self_default mundo_inicial).1 = Ret "sg-0".
Proof.
  intros s c.
  assert (H1 : nube s (llamadas (traza mundo_inicial)) c = Ret (RGroupId "sg-0")) by reflexivity.
  assert (H2 : nube s (llamadas (traza mundo_inicial) ++ [c])
                 (authorize_security_group_ingress "sg-0" reglas_entrada) = Ret RNada)
    by reflexivity.
  split; [exact H1|]. split; [exact H2|].
  rewrite (proj1 (crear_security_group_nuevo s self_default mundo_inicial _ _
                    eq_refl eq_refl) "sg-0" RNada H1 H2).
  reflexivity.
Defined.

(** X5.  The [except] clause of [crear_security_group] covers the
    attachment of the rules as well as the creation.  When the creation
    returned [g] and the attachment raises a fault with the code
    [InvalidGroup.Duplicate], the method looks the name up and returns
    the first identifier of that answer, which need not be [g]. *)
Theorem crear_security_group_reglas_duplicadas (s : sistema) (self : DespliegueRH)
    (w : mundo) (app_name environment : value) (g g' texto : string) (otros : list string) :
  config self !! "app_name" = Some app_name ->
  config self !! "environment" = Some environment ->
  let sg_name := py_str app_name +:+ "-sg" in
  let c := peticion_security_group sg_name
             ("Security Group para aplicación de RH - " +:+ py_str environment) environment in
  let autorizar := authorize_security_group_ingress g reglas_entrada in
  nube s (llamadas (traza w)) c = Ret (RGroupId g) ->
  nube s (llamadas (traza w) ++ [c]) autorizar
    = Raise (ClientError "InvalidGroup.Duplicate" texto) ->
  nube s (llamadas (traza w) ++ [c; autorizar]) (describe_security_groups [sg_name])
    = Ret (RSecurityGroups (g' :: otros)) ->
  crear_security_group s self w =
    (Ret g',
     tras w [Call c;
             Print stdout ("✓ Security Group creado: " +:+ g);
             Call autorizar;
             Call (describe_security_groups [sg_name]);
             Print stdout ("⚠ Security Group ya existe: " +:+ g')]).
Proof.
  intros Ha He sg_name c autorizar Hc Hau Hd. subst sg_name c autorizar.
  unfold crear_security_group. abrir. rewrite Ha, He. cbn beta iota zeta.
  rewrite Hc. cbn beta iota zeta. ordenar. rewrite Hau. cbn beta iota zeta.
  rewrite String.eqb_refl. cbn beta iota. ordenar. rewrite Hd. cbn beta iota zeta.
  now ordenar.
Qed.

(** X6.  The lookup of [crear_security_group] is not protected.  After a
    creation refused as a duplicate, an exception raised by the lookup
    is the one the method raises, and an answer without rule sets makes
    it raise [IndexError]; in both cases the method prints nothing. *)
Theorem crear_security_group_busqueda_fallida (s : sistema) (self : DespliegueRH) (w : mundo)
    (app_name environment : value) (texto : string) :
  config self !! "app_name" = Some app_name ->
  config self !! "environment" = Some environment ->
  let sg_name := py_str app_name +:+ "-sg" in
  let c := peticion_security_group sg_name
             ("Security Group para aplicación de RH - " +:+ py_str environment) environment in
  let buscar_grupo := describe_security_groups [sg_name] in
  nube s (llamadas (traza w)) c = Raise (ClientError "InvalidGroup.Duplicate" texto) ->
  (forall e,
     nube s (llamadas (traza w) ++ [c]) buscar_grupo = Raise e ->
     crear_security_group s self w = (Raise e, tras w [Call c; Call buscar_grupo]))
  /\
  (nube s (llamadas (traza w) ++ [c]) buscar_grupo = Ret (RSecurityGroups []) ->
   crear_security_group s self w = (Raise IndexError, tras w [Call c; Call buscar_grupo])).
Proof.
  intros Ha He sg_name c buscar_grupo Hc. subst sg_name c buscar_grupo. split.
  - intros e Hd.
    unfold crear_security_group. abrir. rewrite Ha, He. cbn beta iota zeta.
    rewrite Hc. cbn beta iota zeta. rewrite String.eqb_refl. cbn beta iota. ordenar.
    rewrite Hd. cbn beta iota. now ordenar.
  - intros Hd.
    unfold crear_security_group. abrir. rewrite Ha, He. cbn beta iota zeta.
    rewrite Hc. cbn beta iota zeta. rewrite String.eqb_refl. cbn beta iota. ordenar.
    rewrite Hd. cbn beta iota. now ordenar.
Qed.

Lemma crear_security_group_reglas_duplicadas_witness :
  let s := maquina (con_fallo autorizacion_duplicada nube_en_memoria) in
  let c := peticion_security_group "app-rh-devops-sg"
             "Security Group para aplicación de RH - production" (VStr "production") in
  let autorizar := authorize_security_group_ingress "sg-0" reglas_entrada in
  nube s [] c = Ret (RGroupId "sg-0") /\
  nube s [c] autorizar = Raise (ClientError "InvalidGroup.Duplicate" "Duplicate") /\
  nube s [c; autorizar] (describe_security_groups ["app-rh-devops-sg"])
    = Ret (RSecurityGroups ["sg-0"]) /\
  crear_security_group s self_default mundo_inicial
    = (Ret "sg-0",
       tras mundo_inicial
         [Call c;
          Print stdout "✓ Security Group creado: sg-0";
          Call autorizar;
          Call (describe_security_groups ["app-rh-devops-sg"]);
          Print stdout "⚠ Security Group ya existe: sg-0"]).
Proof.
  intros s c autorizar.
  assert (H1 : nube s (llamadas (traza mundo_inicial)) c = Ret (RGroupId "sg-0")) by reflexivity.
  assert (H2 : nube s (llamadas (traza mundo_inicial) ++ [c]) autorizar
               = Raise (ClientError "InvalidGroup.Duplicate" "Duplicate")) by reflexivity.
  assert (H3 : nube s (llamadas (traza mundo_inicial) ++ [c; autorizar])
                 (describe_security_groups ["app-rh-devops-sg"])
               = Ret (RSecurityGroups ["sg-0"])) by (vm_compute; reflexivity).
  split; [exact H1|]. split; [exact H2|]. split; [exact H3|].
  exact (crear_security_group_reglas_duplicadas s self_default mundo_inicial
           _ _ "sg-0" "sg-0" "Duplicate" [] eq_refl eq_refl H1 H2 H3).
Defined.

Lemma crear_security_group_busqueda_fallida_witness :
  let c := peticion_security_group "app-rh-devops-sg"
             "Security Group para aplicación de RH - production" (VStr "production") in
  let buscar_grupo := describe_security_groups ["app-rh-devops-sg"] in
  let limite := ClientError "RequestLimitExceeded" "Request limit exceeded" in
  let s1 := maquina (con_fallo busqueda_limitada nube_vacia) in
  let s2 := maquina nube_vacia in
  nube s1 [] c = Raise (ClientError "InvalidGroup.Duplicate" "The security group already exists") /\
  nube s1 [c] buscar_grupo = Raise limite /\
  crear_security_group s1 self_default mundo_inicial
    = (Raise limite, tras mundo_inicial [Call c; Call buscar_grupo]) /\
  nube s2 [c] buscar_grupo = Ret (RSecurityGroups []) /\
  crear_security_group s2 self_default mundo_inicial
    = (Raise IndexError, tras mundo_inicial [Call c; Call buscar_grupo]).
Proof.
  intros c buscar_grupo limite s1 s2.
  assert (H1 : nube s1 (llamadas (traza mundo_inicial)) c
               = Raise (ClientError "InvalidGroup.Duplicate" "The security group already exists"))
    by reflexivity.
  assert (H2 : nube s1 (llamadas (traza mundo_inicial) ++ [c]) buscar_grupo = Raise limite)
    by reflexivity.
  assert (H3 : nube s2 (llamadas (traza mundo_inicial)) c
               = Raise (ClientError "InvalidGroup.Duplicate" "The security group already exists"))
    by reflexivity.
  assert (H4 : nube s2 (llamadas (traza mundo_inicial) ++ [c]) buscar_grupo
               = Ret (RSecurityGroups [])) by reflexivity.
  split; [exact H1|]. split; [exact H2|].
  split; [exact (proj1 (crear_security_group_busqueda_fallida s1 self_default mundo_inicial
                          _ _ _ eq_refl eq_refl H1) limite H2)|].
  split; [exact H4|].
  exact (proj2 (crear_security_group_busqueda_fallida s2 self_default mundo_inicial
                  _ _ _ eq_refl eq_refl H3) H4).
Defined.


(** ** The database and the bucket, further *)

(** X7.  When [crear_base_datos_rds] returns.  A creation that is
    accepted makes the method print four lines on the standard output
    and return [<app_name>-db]; the request carries the password read
    from [RDS_ADMIN_PASSWORD].  The method returns exactly when the
    creation was accepted or refused with [DBInstanceAlreadyExists], and
    what it returns is always [<app_name>-db].  An exception that is not
    a [ClientError] leaves the method as it came, without a line. *)
Theorem crear_base_datos_rds_crea (s : sistema) (self : DespliegueRH) (w : mundo)
    (app_name almacenamiento clase environment : value) :
  config self !! "app_name" = Some app_name ->
  config self !! "db_allocated_storage" = Some almacenamiento ->
  config self !! "db_instance_class" = Some clase ->
  config self !! "environment" = Some environment ->
  let db_instance_id := py_str app_name +:+ "-db" in
  let c := peticion_base_datos db_instance_id almacenamiento clase
             (environ s !! "RDS_ADMIN_PASSWORD") environment in
  (forall r,
     nube s (llamadas (traza w)) c = Ret r ->
     crear_base_datos_rds s self w =
       (Ret db_instance_id,
        tras w [Call c;
                Print stdout ("✓ Instancia RDS creada: " +:+ db_instance_id);
                Print stdout "  - Encriptación en reposo: Habilitada";
                Print stdout "  - Acceso público: Deshabilitado";
                Print stdout "  - Retención de backups: 7 días"]))
  /\
  (forall d,
     (crear_base_datos_rds s self w).1 = Ret d <->
     d = db_instance_id /\
     ((exists r, nube s (llamadas (traza w)) c = Ret r) \/
      (exists texto,
         nube s (llamadas (traza w)) c = Raise (ClientError "DBInstanceAlreadyExists" texto))))
  /\
  (forall e,
     (forall code texto, e <> ClientError code texto) ->
     nube s (llamadas (traza w)) c = Raise e ->
     crear_base_datos_rds s self w = (Raise e, tras w [Call c])).
Proof.
  intros Ha Hs Hc He db_instance_id c. subst db_instance_id c. split; [|split].
  - intros r Hn.
    unfold crear_base_datos_rds. abrir. rewrite Ha, Hs, Hc, He. cbn beta iota zeta.
    rewrite Hn. cbn beta iota zeta. now ordenar.
  - intros d. remember (crear_base_datos_rds s self w) as run eqn:Hrun. revert Hrun.
    unfold crear_base_datos_rds. abrir. rewrite Ha, Hs, Hc, He. cbn beta iota zeta.
    por_casos; intros ->; cbn [fst].
    all: split;
      [ intros Hd; simplify_eq; (split; [reflexivity|]); eauto
      | intros [-> [[r Hr]|[t Ht]]]; simplify_eq; try reflexivity; try congruence ].
  - intros e Hne Hn.
    unfold crear_base_datos_rds. abrir. rewrite Ha, Hs, Hc, He. cbn beta iota zeta.
    rewrite Hn. cbn beta iota zeta.
    destruct e; try (now ordenar). exfalso. now apply (Hne code text).
Qed.

Lemma crear_base_datos_rds_crea_witness :
  let s := maquina nube_en_memoria in
  let c := peticion_base_datos "app-rh-devops-db" (VInt 20) (VStr "db.t3.micro")
             (Some "s3cr3t0") (VStr "production") in
  nube s [] c = Ret RNada /\
  (crear_base_datos_rds s self_default mundo_inicial).1 = Ret "app-rh-devops-db" /\
  llamadas (traza (crear_base_datos_rds s self_default mundo_inicial).2) = [c].
Proof.
  intros s c.
  assert (H1 : nube s (llamadas (traza mundo_inicial)) c = Ret RNada) by reflexivity.
  split; [exact H1|].
  rewrite (proj1 (crear_base_datos_rds_crea s self_default mundo_inicial
                    _ _ _ _ eq_refl eq_refl eq_refl eq_refl) RNada H1).
  split; reflexivity.
Defined.

(** X8.  [crear_bucket_s3_backup] does not go on after a failure.
    Whichever of its five calls raises, after the ones before it
    returned, the method raises that same exception and makes no further
    call: a bucket that was created stays as far configured as the calls
    got.  A [ClientError] is reported on the error stream; any other
    exception passes without a line. *)
Theorem crear_bucket_s3_backup_falla (s : sistema) (self : DespliegueRH) (w : mundo)
    (app_name region environment : value) (i : nat) (ci : llamada) (e : exn) :
  config self !! "app_name" = Some app_name ->
  config self !! "region" = Some region ->
  config self !! "environment" = Some environment ->
  let bucket_name := py_str app_name +:+ "-backups-" +:+ pretty (reloj s) in
  let todas :=
    create_bucket bucket_name (if eq_str region "us-east-1" then None else Some region)
    :: configurar_bucket bucket_name environment in
  todas !! i = Some ci ->
  (forall j cj, (j < i)%nat -> todas !! j = Some cj ->
     exists r, nube s (llamadas (traza w) ++ take j todas) cj = Ret r) ->
  nube s (llamadas (traza w) ++ take i todas) ci = Raise e ->
  crear_bucket_s3_backup s self w =
    (Raise e,
     tras w (map Call (take (S i) todas) ++ queja "✗ Error creando bucket S3: " e)).
Proof.
  intros Ha Hr He bucket_name todas Hi Hantes Hfalla. subst bucket_name todas.
  unfold crear_bucket_s3_backup. abrir. rewrite Ha, Hr, He. cbn beta iota zeta.
  unfold configurar_bucket, peticion_tagging in *.
  destruct (eq_str region "us-east-1");
    destruct i as [|[|[|[|[|i]]]]]; cbn in Hi; try discriminate Hi; injection Hi as <-;
    cbn [take] in Hfalla; rewrite ?app_nil_r in Hfalla.
  all: try (destruct (Hantes 0%nat _ ltac:(lia) eq_refl) as [r0 H0];
            cbn [take] in H0; rewrite ?app_nil_r in H0).
  all: try (destruct (Hantes 1%nat _ ltac:(lia) eq_refl) as [r1 H1]; cbn [take] in H1).
  all: try (destruct (Hantes 2%nat _ ltac:(lia) eq_refl) as [r2 H2]; cbn [take] in H2).
  all: try (destruct (Hantes 3%nat _ ltac:(lia) eq_refl) as [r3 H3]; cbn [take] in H3).
  all: repeat (first [rewrite Hfalla | rewrite H0 | rewrite H1 | rewrite H2 | rewrite H3];
               cbn beta iota zeta; ordenar).
  all: destruct e; cbn [queja str_exn take map app]; ordenar; reflexivity.
Qed.

(** The bucket is created and encrypted; versioning is refused. *)
Lemma crear_bucket_s3_backup_falla_witness :
  let s := maquina (con_fallo sin_versionado nube_en_memoria) in
  let b := "app-rh-devops-backups-1700000000" in
  let e := ClientError "AccessDenied" "Access Denied" in
  nube s [create_bucket b None; put_bucket_encryption b "AES256"]
    (put_bucket_versioning b "Enabled") = Raise e /\
  crear_bucket_s3_backup s self_default mundo_inicial
    = (Raise e,
       tras mundo_inicial
         [Call (create_bucket b None);
          Call (put_bucket_encryption b "AES256");
          Call (put_bucket_versioning b "Enabled");
          Print stderr "✗ Error creando bucket S3: Access Denied"]).
Proof.
  intros s b e. split; [reflexivity|].
  refine (crear_bucket_s3_backup_falla s self_default mundo_inicial
            (VStr "app-rh-devops") (VStr "us-east-1") (VStr "production")
            2%nat (put_bucket_versioning b "Enabled") e
            eq_refl eq_refl eq_refl eq_refl _ eq_refl).
  intros j cj Hj Hc. destruct j as [|[|j]]; [| |lia].
  - injection Hc as <-. exists RNada. reflexivity.
  - injection Hc as <-. exists RNada. reflexivity.
Defined.


(** ** Loading and validating, further *)

(** X9.  The invariant of the configuration.  A configuration the loader
    returns has every key the script reads, and every key of the
    defaults: a file can override a setting and add one, never remove
    one.  The loader prints nothing and makes no call when it returns. *)
Theorem cargar_configuracion_completa (s : sistema) (config_file : option string)
    (w w' : mundo) (cfg : gmap string value) :
  _cargar_configuracion s config_file w = (Ret cfg, w') ->
  w' = w /\
  completa cfg = true /\
  (forall k, is_Some (config_default !! k) -> is_Some (cfg !! k)).
Proof.
  unfold _cargar_configuracion.
  assert (Hdef : forall items k, is_Some (config_default !! k) ->
                   is_Some (update config_default items !! k)).
  { intros items k Hk. rewrite update_lookup. destruct (ultimo k items); [eauto|exact Hk]. }
  destruct (hay_archivo s config_file) as [ruta|].
  - unfold json_load, dict_update.
    destruct (archivos s !! ruta) as [[t|t|[items|t]]|]; abrir; intros H; simplify_eq.
    split; [reflexivity|]. split; [apply update_completa|apply Hdef].
  - intros H. injection H as <- <-.
    split; [reflexivity|]. split; [reflexivity|auto].
Qed.

Lemma cargar_configuracion_completa_witness :
  let s := maquina_con_archivo (Json (Pares pares_ejemplo)) in
  let cfg := update config_default pares_ejemplo in
  _cargar_configuracion s (Some "config.json") mundo_inicial = (Ret cfg, mundo_inicial) /\
  completa cfg = true /\
  cfg !! "owner" = Some (VStr "rrhh") /\
  is_Some (cfg !! "ami_id").
Proof.
  intros s cfg.
  assert (H : _cargar_configuracion s (Some "config.json") mundo_inicial
              = (Ret cfg, mundo_inicial)) by reflexivity.
  destruct (cargar_configuracion_completa s _ _ _ _ H) as (_ & Hc & Hk).
  split; [exact H|]. split; [exact Hc|]. split; [reflexivity|].
  apply Hk. eexists. reflexivity.
Defined.

(** X10.  The loader catches the parse error only.  A file that cannot
    be opened, or that holds a JSON value [update] rejects, makes the
    loader raise the error as it came, without a line of its own; [main]
    reports it as a fatal error on the error stream and the process ends
    with status 1, before any call. *)
Theorem configuracion_no_capturada (s : sistema) (ruta texto : string) :
  ruta <> "" ->
  archivos s !! ruta = Some (Ilegible texto) \/
  archivos s !! ruta = Some (Json (NoActualizable texto)) ->
  (forall w, _cargar_configuracion s (Some ruta) w = (Raise (OtherError texto), w)) /\
  proceso s (Some ruta)
  = (1, tras mundo_inicial [Print stderr (nl +:+ "✗ Error fatal: " +:+ texto)]).
Proof.
  intros Hr Hf.
  assert (Hcarga : forall w, _cargar_configuracion s (Some ruta) w = (Raise (OtherError texto), w)).
  { intros w. unfold _cargar_configuracion.
    destruct Hf as [Hf|Hf]; rewrite (hay_archivo_presente s ruta _ Hr Hf);
      unfold json_load, dict_update; rewrite Hf; reflexivity. }
  split; [exact Hcarga|].
  unfold proceso, main, main_try, __init__, try_except, mbind, M_bind.
  rewrite Hcarga. reflexivity.
Qed.

Lemma configuracion_no_capturada_witness :
  let s := maquina_con_archivo (Json (NoActualizable "'int' object is not iterable")) in
  "config.json" <> "" /\
  archivos s !! "config.json" = Some (Json (NoActualizable "'int' object is not iterable")) /\
  proceso s (Some "config.json")
  = (1, tras mundo_inicial
          [Print stderr (nl +:+ "✗ Error fatal: 'int' object is not iterable")]).
Proof.
  intros s.
  assert (Hr : "config.json" <> "") by discriminate.
  assert (Hf : archivos s !! "config.json"
               = Some (Json (NoActualizable "'int' object is not iterable"))) by reflexivity.
  split; [exact Hr|]. split; [exact Hf|].
  exact (proj2 (configuracion_no_capturada s "config.json" _ Hr (or_intror Hf))).
Defined.

Lemma recoger_vacio (s : sistema) :
  recoger s variables_requeridas [] = [] <->
  (forall var d, In (var, d) variables_requeridas -> falta s var = false).
Proof.
  rewrite recoger_filter. cbn [app]. unfold variables_requeridas.
  cbn [List.filter fst]. split.
  - intros H var d Hin. simpl in Hin.
    destruct Hin as [Hin|[Hin|[Hin|[]]]]; injection Hin as <- <-;
      destruct (falta s "RDS_ADMIN_PASSWORD"), (falta s "AWS_ACCESS_KEY_ID"),
        (falta s "AWS_SECRET_ACCESS_KEY"); try reflexivity; discriminate H.
  - intros H.
    rewrite (H "RDS_ADMIN_PASSWORD" _ (or_introl eq_refl)).
    rewrite (H "AWS_ACCESS_KEY_ID" _ (or_intror (or_introl eq_refl))).
    rewrite (H "AWS_SECRET_ACCESS_KEY" _ (or_intror (or_intror (or_introl eq_refl)))).
    reflexivity.
Qed.

Lemma falta_false (s : sistema) (var : string) :
  falta s var = false <-> exists v, environ s !! var = Some v /\ v <> "".
Proof.
  unfold falta. destruct (environ s !! var) as [v|].
  - destruct (String.eqb_spec v "") as [->|Hne]; split.
    + discriminate.
    + intros (v' & Hv & Hne). congruence.
    + eauto.
    + reflexivity.
  - split; [discriminate|]. intros (v & Hv & _). discriminate.
Qed.

(** X11.  What the validator accepts.  It returns, having printed
    nothing, exactly when each of the three variables is set to a
    string that is not empty.  A variable set to the empty string is
    reported like one that is not set. *)
Theorem validar_acepta (s : sistema) (w : mundo) :
  (_validar_variables_entorno s w = (Ret tt, w) <->
   forall var d, In (var, d) variables_requeridas ->
     exists v, environ s !! var = Some v /\ v <> "") /\
  (forall var d,
     In (var, d) variables_requeridas ->
     environ s !! var = Some "" ->
     (_validar_variables_entorno s w).1 = Raise (SystemExit 1) /\
     In (Print stderr ("  - " +:+ var +:+ " (" +:+ d +:+ ")"))
        (traza (_validar_variables_entorno s w).2)).
Proof.
  split.
  - split.
    + intros Hret var d Hin. apply falta_false.
      revert var d Hin. apply recoger_vacio.
      destruct (recoger s variables_requeridas []) as [|x l] eqn:Hrec; [reflexivity|].
      rewrite validar_faltantes in Hret by (rewrite Hrec; discriminate). discriminate Hret.
    + intros Hset.
      assert (Hrec : recoger s variables_requeridas [] = []).
      { apply recoger_vacio. intros var d Hin. apply falta_false. eauto. }
      unfold _validar_variables_entorno. rewrite Hrec. reflexivity.
  - intros var d Hin Hvacia.
    assert (Hen : In (var +:+ " (" +:+ d +:+ ")") (recoger s variables_requeridas [])).
    { rewrite recoger_filter. cbn [app].
      apply (in_map (fun vd => vd.1 +:+ " (" +:+ vd.2 +:+ ")") _ (var, d)).
      apply filter_In. split; [exact Hin|].
      cbn [fst]. unfold falta. rewrite Hvacia. reflexivity. }
    rewrite validar_faltantes by (intros Heq; rewrite Heq in Hen; destruct Hen).
    cbn [fst snd traza tras]. split; [reflexivity|].
    apply in_or_app. right. unfold informe_faltantes. right. apply in_or_app. left.
    apply (in_map (fun v => Print stderr ("  - " +:+ v))). exact Hen.
Qed.

Lemma validar_acepta_witness :
  _validar_variables_entorno (maquina nube_en_memoria) mundo_inicial = (Ret tt, mundo_inicial) /\
  let s := {| environ := <["AWS_ACCESS_KEY_ID" := ""]> entorno_completo; archivos := ∅;
              reloj := 0; nube := nube_en_memoria |} in
  (_validar_variables_entorno s mundo_inicial).1 = Raise (SystemExit 1) /\
  In (Print stderr "  - AWS_ACCESS_KEY_ID (AWS Access Key ID)")
     (traza (_validar_variables_entorno s mundo_inicial).2).
Proof.
  split.
  - apply (proj1 (validar_acepta (maquina nube_en_memoria) mundo_inicial)).
    intros var d Hin. simpl in Hin.
    destruct Hin as [Hin|[Hin|[Hin|[]]]]; injection Hin as <- <-;
      eexists; (split; [reflexivity|discriminate]).
  - intros s.
    apply (proj2 (validar_acepta s mundo_inicial) "AWS_ACCESS_KEY_ID" "AWS Access Key ID").
    + simpl. tauto.
    + reflexivity.
Defined.


(** ** The constructor *)

(** X12.  [__init__] when nothing fails: once the configuration is
    loaded and the three variables are found, the four clients are
    built in the order ec2, rds, s3, iam, each for the region of the
    loaded configuration, and the object keeps that configuration.
    When a construction raises, the ones after it are not attempted. *)
Theorem init_construye (s : sistema) (config_file : option string) (w : mundo)
    (cfg : gmap string value) (region : value) :
  _cargar_configuracion s config_file w = (Ret cfg, w) ->
  recoger s variables_requeridas [] = [] ->
  cfg !! "region" = Some region ->
  let clientes := map (fun servicio => boto3_client servicio region) ["ec2"; "rds"; "s3"; "iam"] in
  ((forall i c, clientes !! i = Some c ->
      exists r, nube s (llamadas (traza w) ++ take i clientes) c = Ret r) ->
   __init__ s config_file w = (Ret {| config := cfg |}, tras w (map Call clientes)))
  /\
  (forall i c e,
     clientes !! i = Some c ->
     (forall j cj, (j < i)%nat -> clientes !! j = Some cj ->
        exists r, nube s (llamadas (traza w) ++ take j clientes) cj = Ret r) ->
     nube s (llamadas (traza w) ++ take i clientes) c = Raise e ->
     __init__ s config_file w = (Raise e, tras w (map Call (take (S i) clientes)))).
Proof.
  intros Hcarga Hrec Hregion clientes. subst clientes. cbn [map].
  assert (Hval : _validar_variables_entorno s w = (Ret tt, w)).
  { unfold _validar_variables_entorno. now rewrite Hrec. }
  split.
  - intros Hok.
    destruct (Hok 0%nat _ eq_refl) as [r0 H0]. cbn [take] in H0. rewrite app_nil_r in H0.
    destruct (Hok 1%nat _ eq_refl) as [r1 H1]. cbn [take] in H1.
    destruct (Hok 2%nat _ eq_refl) as [r2 H2]. cbn [take] in H2.
    destruct (Hok 3%nat _ eq_refl) as [r3 H3]. cbn [take] in H3.
    unfold __init__. unfold mbind at 1 2, M_bind at 1 2. rewrite Hcarga, Hval.
    abrir. rewrite Hregion. cbn beta iota zeta.
    repeat (first [rewrite H0 | rewrite H1 | rewrite H2 | rewrite H3];
            cbn beta iota zeta; ordenar).
    reflexivity.
  - intros i c e Hi Hantes Hfalla.
    unfold __init__. unfold mbind at 1 2, M_bind at 1 2. rewrite Hcarga, Hval.
    abrir. rewrite Hregion. cbn beta iota zeta.
    destruct i as [|[|[|[|i]]]]; cbn in Hi; try discriminate Hi; injection Hi as <-;
      cbn [take] in Hfalla; rewrite ?app_nil_r in Hfalla.
    all: try (destruct (Hantes 0%nat _ ltac:(lia) eq_refl) as [r0 H0];
              cbn [take] in H0; rewrite ?app_nil_r in H0).
    all: try (destruct (Hantes 1%nat _ ltac:(lia) eq_refl) as [r1 H1]; cbn [take] in H1).
    all: try (destruct (Hantes 2%nat _ ltac:(lia) eq_refl) as [r2 H2]; cbn [take] in H2).
    all: repeat (first [rewrite Hfalla | rewrite H0 | rewrite H1 | rewrite H2];
                 cbn beta iota zeta; ordenar).
    all: reflexivity.
Qed.

Lemma init_construye_witness :
  let s := maquina_con_archivo (Json (Pares pares_ejemplo)) in
  let cfg := update config_default pares_ejemplo in
  _cargar_configuracion s (Some "config.json") mundo_inicial = (Ret cfg, mundo_inicial) /\
  recoger s variables_requeridas [] = [] /\
  cfg !! "region" = Some (VStr "sa-east-1") /\
  __init__ s (Some "config.json") mundo_inicial
  = (Ret {| config := cfg |},
     tras mundo_inicial
       [Call (boto3_client "ec2" (VStr "sa-east-1"));
        Call (boto3_client "rds" (VStr "sa-east-1"));
        Call (boto3_client "s3" (VStr "sa-east-1"));
        Call (boto3_client "iam" (VStr "sa-east-1"))]).
Proof.
  intros s cfg.
  assert (H1 : _cargar_configuracion s (Some "config.json") mundo_inicial
               = (Ret cfg, mundo_inicial)) by reflexivity.
  assert (H2 : recoger s variables_requeridas [] = []) by reflexivity.
  assert (H3 : cfg !! "region" = Some (VStr "sa-east-1")) by reflexivity.
  split; [exact H1|]. split; [exact H2|]. split; [exact H3|].
  apply (proj1 (init_construye s _ _ cfg _ H1 H2 H3)).
  intros i c Hc. exists RNada.
  do 4 (destruct i as [|i]; [injection Hc as <-; reflexivity|]). discriminate Hc.
Defined.


(** ** The calls of a run *)

Section CadaLlamada.

Context {A B : Type} (P : llamada -> Prop).

Lemma cada_ret (a : A) : cada_llamada P (mret a : M A).
Proof. intros w. exists []. split; [simpl; now rewrite app_nil_r|constructor]. Qed.

Lemma cada_raise (e : exn) : cada_llamada P (raise e : M A).
Proof. intros w. exists []. split; [simpl; now rewrite app_nil_r|constructor]. Qed.

Lemma cada_bind (m : M A) (k : A -> M B) :
  cada_llamada P m -> (forall a, cada_llamada P (k a)) -> cada_llamada P (m ≫= k).
Proof.
  intros Hm Hk w. unfold mbind, M_bind.
  destruct (Hm w) as (n1 & Ht1 & Hf1).
  destruct (m w) as [[a|e] w1]; cbn [fst snd] in *.
  - destruct (Hk a w1) as (n2 & Ht2 & Hf2).
    exists (n1 ++ n2). split; [now rewrite Ht2, Ht1, app_assoc|].
    rewrite llamadas_app. now apply Forall_app.
  - exists n1. split; assumption.
Qed.

Lemma cada_try (m : M A) (h : exn -> option (M A)) :
  cada_llamada P m -> (forall e k, h e = Some k -> cada_llamada P k) ->
  cada_llamada P (try_except m h).
Proof.
  intros Hm Hh w. unfold try_except.
  destruct (Hm w) as (n1 & Ht1 & Hf1).
  destruct (m w) as [[a|e] w1]; cbn [fst snd] in *.
  - exists n1. split; assumption.
  - destruct (h e) as [k|] eqn:He.
    + destruct (Hh e k He w1) as (n2 & Ht2 & Hf2).
      exists (n1 ++ n2). split; [now rewrite Ht2, Ht1, app_assoc|].
      rewrite llamadas_app. now apply Forall_app.
    + exists n1. split; assumption.
Qed.

End CadaLlamada.

Lemma cada_silencio {A : Type} (P : llamada -> Prop) (m : M A) :
  (forall w, exists t, traza (m w).2 = traza w ++ t /\ llamadas t = []) -> cada_llamada P m.
Proof.
  intros H w. destruct (H w) as (t & Ht & Hl). exists t. split; [exact Ht|].
  rewrite Hl. constructor.
Qed.

Lemma cada_print (P : llamada -> Prop) (t : string) : cada_llamada P (print t).
Proof. apply cada_silencio. intros w. exists [Print stdout t]. split; reflexivity. Qed.

Lemma cada_eprint (P : llamada -> Prop) (t : string) : cada_llamada P (eprint t).
Proof. apply cada_silencio. intros w. exists [Print stderr t]. split; reflexivity. Qed.

Lemma cada_item (P : llamada -> Prop) (d : gmap string value) (k : string) :
  cada_llamada P (item d k).
Proof. unfold item. destruct (d !! k); [apply cada_ret|apply cada_raise]. Qed.

Lemma cada_guardar (P : llamada -> Prop) (k v : string) : cada_llamada P (guardar k v).
Proof. apply cada_silencio. intros w. exists []. split; [simpl; now rewrite app_nil_r|reflexivity]. Qed.

Lemma cada_recursos_vacios (P : llamada -> Prop) : cada_llamada P recursos_vacios.
Proof. apply cada_silencio. intros w. exists []. split; [simpl; now rewrite app_nil_r|reflexivity]. Qed.

Lemma cada_recursos_items (P : llamada -> Prop) : cada_llamada P recursos_items.
Proof. apply cada_silencio. intros w. exists []. split; [simpl; now rewrite app_nil_r|reflexivity]. Qed.

Lemma cada_llamar (P : llamada -> Prop) (s : sistema) (c : llamada) :
  P c -> cada_llamada P (llamar s c).
Proof.
  intros Hc w. exists [Call c]. split; [reflexivity|]. simpl. constructor; [exact Hc|constructor].
Qed.

Lemma cada_para_cada {A : Type} (P : llamada -> Prop) (l : list A) (f : A -> M unit) :
  (forall x, cada_llamada P (f x)) -> cada_llamada P (para_cada l f).
Proof.
  intros Hf. induction l as [|x l IH]; cbn [para_cada].
  - apply cada_ret.
  - apply cada_bind; [apply Hf|intros _; exact IH].
Qed.

Lemma cada_mas_debil {A : Type} (P Q : llamada -> Prop) (m : M A) :
  (forall c, P c -> Q c) -> cada_llamada P m -> cada_llamada Q m.
Proof.
  intros HPQ Hm w. destruct (Hm w) as (t & Ht & Hf). exists t. split; [exact Ht|].
  eapply Forall_impl; eauto.
Qed.

(** Decompose a program into its operations; a call leaves the
    obligation that it satisfies the predicate. *)
Ltac inspeccionar :=
  repeat first
    [ assumption
    | match goal with
      | H : forall x, cada_llamada _ _ |- _ => apply H
      | H : forall x y, cada_llamada _ _ |- _ => apply H
      end
    | apply cada_ret | apply cada_raise | apply cada_print | apply cada_eprint
    | apply cada_item | apply cada_guardar
    | apply cada_recursos_vacios | apply cada_recursos_items
    | apply cada_llamar;
      unfold peticion_security_group, peticion_tagging, peticion_instancia,
        peticion_base_datos; cbn; solve [auto 10]
    | apply cada_bind; [|intros ?]
    | apply cada_para_cada; intros ?
    | apply cada_try;
      [|let e := fresh "e" in let k := fresh "k" in let H := fresh "H" in
        intros e k H; destruct e; cbn [es_Exception] in H; simplify_eq]
    | match goal with
      | |- cada_llamada _ (if ?b then _ else _) => destruct b
      | |- cada_llamada _ (match ?r with _ => _ end) => destruct r
      end ].

Lemma ajustes_crear_security_group s self :
  cada_llamada ajustes_fijos (crear_security_group s self).
Proof. unfold crear_security_group, get_GroupId, get_first_SecurityGroup. inspeccionar. Qed.

Lemma ajustes_crear_bucket_s3_backup s self :
  cada_llamada ajustes_fijos (crear_bucket_s3_backup s self).
Proof. unfold crear_bucket_s3_backup. inspeccionar. Qed.

Lemma ajustes_crear_instancia_ec2 s self sg_id :
  cada_llamada ajustes_fijos (crear_instancia_ec2 s self sg_id).
Proof. unfold crear_instancia_ec2, get_first_Instance. inspeccionar. Qed.

Lemma ajustes_crear_base_datos_rds s self :
  cada_llamada ajustes_fijos (crear_base_datos_rds s self).
Proof. unfold crear_base_datos_rds. inspeccionar. Qed.

Lemma ajustes_main s config_arg : cada_llamada ajustes_fijos (main s config_arg).
Proof.
  pose proof (ajustes_crear_security_group s).
  pose proof (ajustes_crear_bucket_s3_backup s).
  pose proof (ajustes_crear_instancia_ec2 s).
  pose proof (ajustes_crear_base_datos_rds s).
  unfold main, main_try, __init__, _cargar_configuracion, _validar_variables_entorno,
    json_load, dict_update, desplegar, desplegar_cabecera, desplegar_try, desplegar_except,
    resumen, paso_1, paso_2, paso_3, paso_4.
  inspeccionar.
Qed.

(** X15.  What no configuration, environment or provider can change.
    In every run of the process, every database is requested private,
    encrypted, with seven days of backups and outside every rule set;
    every bucket is encrypted, versioned and closed to the public on all
    four counts; every launch asks for exactly one instance; and the
    rules attached are the two of [reglas_entrada]. *)
Theorem proceso_ajustes_fijos (s : sistema) (config_arg : option string) :
  Forall ajustes_fijos (llamadas (traza (proceso s config_arg).2)).
Proof.
  destruct (ajustes_main s config_arg mundo_inicial) as (t & Ht & Hf).
  unfold proceso. destruct (main s config_arg mundo_inicial) as [r w1].
  cbn [fst snd traza mundo_inicial app] in *. now rewrite Ht.
Qed.


Lemma no_lanza_paso_1 s self : cada_llamada no_lanza (paso_1 s self).
Proof.
  unfold paso_1, crear_security_group, get_GroupId, get_first_SecurityGroup. inspeccionar.
Qed.

Lemma lanza_en_resto s self sg_id :
  cada_llamada (lanza_en sg_id)
    (paso_2 s self;; paso_3 s self sg_id;; paso_4 s self;; resumen).
Proof.
  unfold paso_2, paso_3, paso_4, resumen, crear_bucket_s3_backup, crear_instancia_ec2,
    crear_base_datos_rds, get_first_Instance.
  inspeccionar.
Qed.

(** X14.  The one dependency between the steps.  In a deployment, an
    instance is launched only after [crear_security_group] has
    returned, and then in the rule set it returned and in no other; if
    that step raises, nothing is launched. *)
Theorem instancia_en_el_grupo (s : sistema) (self : DespliegueRH) (w : mundo) :
  exists nuevos,
    traza (desplegar_try s self w).2 = traza w ++ nuevos /\
    match (paso_1 s self w).1 with
    | Ret sg_id => Forall (lanza_en sg_id) (llamadas nuevos)
    | Raise _ => Forall no_lanza (llamadas nuevos)
    end.
Proof.
  unfold desplegar_try. unfold mbind at 1, M_bind at 1.
  destruct (no_lanza_paso_1 s self w) as (n1 & Ht1 & Hf1).
  destruct (paso_1 s self w) as [[sg_id|e] w1]; cbn [fst snd] in *.
  - destruct (lanza_en_resto s self sg_id w1) as (n2 & Ht2 & Hf2).
    exists (n1 ++ n2). split; [now rewrite Ht2, Ht1, app_assoc|].
    rewrite llamadas_app. apply Forall_app. split; [|exact Hf2].
    eapply Forall_impl; [exact Hf1|]. intros c Hc. destruct c; try exact I. destruct Hc.
  - exists n1. split; assumption.
Qed.

(** ** The summary *)

(** X13.  A deployment whose four steps return.  [desplegar] returns
    after the summary: a heading, the four resources in the order of
    the steps, each with its label and its identifier, and the seven
    reminders; all of it on the standard output. *)
Theorem desplegar_resumen (s : sistema) (self : DespliegueRH) (w w1 w2 w3 w4 : mundo)
    (sg_id bucket_name instance_id db_instance_id : string) :
  completa (config self) = true ->
  paso_1 s self (inicio self w) = (Ret sg_id, w1) ->
  paso_2 s self w1 = (Ret bucket_name, w2) ->
  paso_3 s self sg_id w2 = (Ret instance_id, w3) ->
  paso_4 s self w3 = (Ret db_instance_id, w4) ->
  let creados := [("security_group", sg_id); ("s3_bucket", bucket_name);
                  ("ec2_instance", instance_id); ("rds_instance", db_instance_id)] in
  recursos_creados w4 = creados /\
  desplegar s self w = (Ret tt, tras w4 (lineas_del_resumen creados)).
Proof.
  intros Hc H1 H2 H3 H4 creados.
  destruct (inicio_recursos self w Hc) as [Hcab Hvacio].
  assert (Hrec : recursos_creados w4 = creados).
  { pose proof (paso_recursos (nl +:+ "[1/4] Creando Security Group...")
                  "security_group" _ (inicio self w) (conserva_crear_security_group s self)) as R1.
    fold (paso_1 s self) in R1. rewrite H1, Hvacio in R1.
    pose proof (paso_recursos (nl +:+ "[2/4] Creando bucket S3 para backups...")
                  "s3_bucket" _ w1 (conserva_crear_bucket_s3_backup s self)) as R2.
    fold (paso_2 s self) in R2. rewrite H2, R1 in R2.
    pose proof (paso_recursos (nl +:+ "[3/4] Creando instancia EC2...")
                  "ec2_instance" _ w2 (conserva_crear_instancia_ec2 s self sg_id)) as R3.
    change (match paso_3 s self sg_id w2 with
            | (Ret x, w') => recursos_creados w' = dict_set (recursos_creados w2) "ec2_instance" x
            | (Raise _, w') => recursos_creados w' = recursos_creados w2
            end) in R3.
    rewrite H3, R2 in R3.
    pose proof (paso_recursos (nl +:+ "[4/4] Creando base de datos RDS...")
                  "rds_instance" _ w3 (conserva_crear_base_datos_rds s self)) as R4.
    fold (paso_4 s self) in R4. rewrite H4, R3 in R4. exact R4. }
  split; [exact Hrec|].
  unfold desplegar. unfold mbind at 1, M_bind at 1. rewrite Hcab.
  unfold try_except, desplegar_try, mbind, M_bind. rewrite H1, H2, H3, H4.
  unfold resumen. abrir. cbn [recursos_creados emitir]. rewrite Hrec.
  subst creados. cbn [para_cada]. abrir. cbn [fst snd]. unfold lineas_del_resumen.
  cbn [map app fst snd]. now ordenar.
Qed.

Lemma desplegar_resumen_witness :
  let s := maquina nube_en_memoria in
  let creados := [("security_group", "sg-0"); ("s3_bucket", "app-rh-devops-backups-1700000000");
                  ("ec2_instance", "i-7"); ("rds_instance", "app-rh-devops-db")] in
  completa (config self_default) = true /\
  (desplegar s self_default mundo_inicial).1 = Ret tt /\
  recursos_creados (desplegar s self_default mundo_inicial).2 = creados /\
  exists w4, traza (desplegar s self_default mundo_inicial).2
             = traza w4 ++ lineas_del_resumen creados.
Proof.
  intros s creados.
  set (w0 := inicio self_default mundo_inicial).
  set (w1 := (paso_1 s self_default w0).2).
  set (w2 := (paso_2 s self_default w1).2).
  set (w3 := (paso_3 s self_default "sg-0" w2).2).
  set (w4 := (paso_4 s self_default w3).2).
  assert (H1 : paso_1 s self_default w0 = (Ret "sg-0", w1)) by (vm_compute; reflexivity).
  assert (H2 : paso_2 s self_default w1 = (Ret "app-rh-devops-backups-1700000000", w2))
    by (vm_compute; reflexivity).
  assert (H3 : paso_3 s self_default "sg-0" w2 = (Ret "i-7", w3)) by (vm_compute; reflexivity).
  assert (H4 : paso_4 s self_default w3 = (Ret "app-rh-devops-db", w4))
    by (vm_compute; reflexivity).
  destruct (desplegar_resumen s self_default mundo_inicial w1 w2 w3 w4 _ _ _ _
              eq_refl H1 H2 H3 H4) as [Hrec Hd].
  split; [reflexivity|]. rewrite Hd. cbn [fst snd].
  split; [reflexivity|]. split; [exact Hrec|]. exists w4. reflexivity.
Defined.


(** ** The exit status *)

Section SaleCon1.

Context {A B : Type}.

Lemma sale_ret (a : A) : sale_con_1 (mret a : M A).
Proof. intros w n H. discriminate H. Qed.

Lemma sale_raise (e : exn) :
  (forall n, e = SystemExit n -> n = 1) -> sale_con_1 (raise e : M A).
Proof. intros He w n H. injection H as ->. now apply He. Qed.

Lemma sale_bind (m : M A) (k : A -> M B) :
  sale_con_1 m -> (forall a, sale_con_1 (k a)) -> sale_con_1 (m ≫= k).
Proof.
  intros Hm Hk w n. unfold mbind, M_bind. specialize (Hm w n).
  destruct (m w) as [[a|e] w1]; cbn [fst] in *; [apply Hk|].
  intros H. injection H as ->. now apply Hm.
Qed.

Lemma sale_try (m : M A) (h : exn -> option (M A)) :
  sale_con_1 m -> (forall e k, h e = Some k -> sale_con_1 k) -> sale_con_1 (try_except m h).
Proof.
  intros Hm Hh w n. unfold try_except. specialize (Hm w n).
  destruct (m w) as [[a|e] w1]; cbn [fst] in *; [discriminate|].
  destruct (h e) as [k|] eqn:He; [apply (Hh e k He)|exact Hm].
Qed.

End SaleCon1.

Lemma sale_print (t : string) : sale_con_1 (print t).
Proof. intros w n H. discriminate H. Qed.

Lemma sale_eprint (t : string) : sale_con_1 (eprint t).
Proof. intros w n H. discriminate H. Qed.

Lemma sale_item (d : gmap string value) (k : string) : sale_con_1 (item d k).
Proof.
  unfold item. destruct (d !! k); [apply sale_ret|apply sale_raise; discriminate].
Qed.

Lemma sale_guardar (k v : string) : sale_con_1 (guardar k v).
Proof. intros w n H. discriminate H. Qed.

Lemma sale_recursos_vacios : sale_con_1 recursos_vacios.
Proof. intros w n H. discriminate H. Qed.

Lemma sale_recursos_items : sale_con_1 recursos_items.
Proof. intros w n H. discriminate H. Qed.

Lemma sale_llamar (s : sistema) (c : llamada) :
  (forall h c n, nube s h c <> Raise (SystemExit n)) -> sale_con_1 (llamar s c).
Proof. intros Hs w n H. unfold llamar in H. cbn [fst] in H. now apply Hs in H. Qed.

Lemma sale_para_cada {A : Type} (l : list A) (f : A -> M unit) :
  (forall x, sale_con_1 (f x)) -> sale_con_1 (para_cada l f).
Proof.
  intros Hf. induction l as [|x l IH]; cbn [para_cada].
  - apply sale_ret.
  - apply sale_bind; [apply Hf|intros _; exact IH].
Qed.

(** Decompose a program into its operations. *)
Ltac salir :=
  repeat first
    [ assumption
    | apply sale_ret | apply sale_print | apply sale_eprint
    | apply sale_item | apply sale_guardar
    | apply sale_recursos_vacios | apply sale_recursos_items
    | apply sale_llamar; assumption
    | apply sale_raise; intros ? ?; simplify_eq; reflexivity
    | apply sale_bind; [|intros ?]
    | apply sale_para_cada; intros ?
    | apply sale_try;
      [|let e := fresh "e" in let k := fresh "k" in let H := fresh "H" in
        intros e k H; destruct e; cbn [es_Exception] in H; simplify_eq]
    | match goal with
      | |- sale_con_1 (if ?b then _ else _) => destruct b
      | |- sale_con_1 (match ?r with _ => _ end) => destruct r
      end ].

Lemma sale_main_try (s : sistema) (config_arg : option string) :
  (forall h c n, nube s h c <> Raise (SystemExit n)) -> sale_con_1 (main_try s config_arg).
Proof.
  intros Hs.
  unfold main_try, __init__, _cargar_configuracion, _validar_variables_entorno,
    json_load, dict_update, desplegar, desplegar_cabecera, desplegar_try, desplegar_except,
    resumen, paso_1, paso_2, paso_3, paso_4, crear_security_group, crear_bucket_s3_backup,
    crear_instancia_ec2, crear_base_datos_rds, get_GroupId, get_first_SecurityGroup,
    get_first_Instance.
  salir.
Qed.

(** X16.  The exit status of the process.  With a provider that does
    not raise [SystemExit] itself, the status is 0 or 1, and it is 0
    exactly when the [try] of [main] returns: every exception, whatever
    its kind and wherever it is raised, ends the process with status
    1. *)
Theorem proceso_estado (s : sistema) (config_arg : option string) :
  (forall h c n, nube s h c <> Raise (SystemExit n)) ->
  ((proceso s config_arg).1 = 0 \/ (proceso s config_arg).1 = 1) /\
  ((proceso s config_arg).1 = 0 <-> (main_try s config_arg mundo_inicial).1 = Ret tt).
Proof.
  intros Hs. pose proof (sale_main_try s config_arg Hs mundo_inicial) as Hsale.
  unfold proceso, main, try_except.
  destruct (main_try s config_arg mundo_inicial) as [[[]|e] w1]; cbn [fst] in *.
  - split; [left; reflexivity|]. split; reflexivity.
  - destruct e; abrir; cbn [fst exit_status];
      try (split; [right; reflexivity|]; split; discriminate).
    rewrite (Hsale status eq_refl).
    split; [right; reflexivity|]. split; discriminate.
Qed.

Lemma nube_en_memoria_sin_salida (h : list llamada) (c : llamada) (n : Z) :
  nube_en_memoria h c <> Raise (SystemExit n).
Proof.
  unfold nube_en_memoria.
  destruct c; try discriminate.
  - destruct (buscar GroupName (grupos h)); discriminate.
  - destruct (buscar_todos GroupNames (grupos h)); discriminate.
  - destruct (hay_base DBInstanceIdentifier h); discriminate.
Qed.

Lemma proceso_estado_witness :
  let s := maquina (con_fallo sin_permiso_s3 nube_en_memoria) in
  (forall h c n, nube s h c <> Raise (SystemExit n)) /\
  (proceso s None).1 = 1 /\
  (proceso (maquina nube_en_memoria) None).1 = 0.
Proof.
  intros s.
  assert (Hs : forall h c n, nube s h c <> Raise (SystemExit n)).
  { intros h c n. cbn [nube s maquina]. unfold con_fallo.
    destruct (sin_permiso_s3 c) as [e|] eqn:He; [|apply nube_en_memoria_sin_salida].
    destruct c; try discriminate He. injection He as <-. discriminate. }
  split; [exact Hs|].
  destruct (proceso_estado s None Hs) as [[H0|H1] Hiff].
  - apply Hiff in H0. vm_compute in H0. discriminate H0.
  - split; [exact H1|].
    apply (proj2 (proceso_estado (maquina nube_en_memoria) None nube_en_memoria_sin_salida)).
    vm_compute. reflexivity.
Defined.


(** ** The order of the calls *)

Lemma creciente_le (lo hi : nat) (l : list nat) : creciente lo hi l -> (lo <= hi)%nat.
Proof.
  revert lo. induction l as [|x l IH]; intros lo; cbn [creciente]; [auto|].
  intros [Hx Hl]. apply IH in Hl. lia.
Qed.

Lemma creciente_desde (lo lo' hi : nat) (l : list nat) :
  (lo' <= lo)%nat -> creciente lo hi l -> creciente lo' hi l.
Proof. destruct l; cbn [creciente]; intros; intuition lia. Qed.

Lemma creciente_hasta (lo hi hi' : nat) (l : list nat) :
  (hi <= hi')%nat -> creciente lo hi l -> creciente lo hi' l.
Proof.
  revert lo. induction l as [|x l IH]; intros lo Hh; cbn [creciente]; [lia|].
  intros [Hx Hl]. split; [exact Hx|now apply IH].
Qed.

Lemma creciente_app (lo mid hi : nat) (l1 l2 : list nat) :
  creciente lo mid l1 -> creciente mid hi l2 -> creciente lo hi (l1 ++ l2).
Proof.
  revert lo. induction l1 as [|x l1 IH]; intros lo; cbn [creciente app].
  - intros Hlo. now apply creciente_desde.
  - intros [Hx Hl] H2. split; [exact Hx|now apply IH].
Qed.

Lemma creciente_sorted (lo hi : nat) (l : list nat) :
  creciente lo hi l -> StronglySorted lt l /\ Forall (fun x => (lo <= x < hi)%nat) l.
Proof.
  revert lo. induction l as [|x l IH]; intros lo; cbn [creciente].
  - intros _. split; constructor.
  - intros [Hx Hl]. destruct (IH _ Hl) as [Hs Hf]. pose proof (creciente_le _ _ _ Hl).
    split.
    + constructor; [exact Hs|]. eapply Forall_impl; [exact Hf|]. cbn. intros; lia.
    + constructor; [lia|]. eapply Forall_impl; [exact Hf|]. cbn. intros; lia.
Qed.

Section EnOrden.

Context {A B : Type}.

Lemma en_orden_bind (lo mid hi : nat) (m : M A) (k : A -> M B) :
  (mid <= hi)%nat ->
  en_orden lo mid m -> (forall a, en_orden mid hi (k a)) -> en_orden lo hi (m ≫= k).
Proof.
  intros Hmid Hm Hk w. unfold mbind, M_bind.
  destruct (Hm w) as (n1 & Ht1 & Hf1).
  destruct (m w) as [[a|e] w1]; cbn [fst snd] in *.
  - destruct (Hk a w1) as (n2 & Ht2 & Hf2).
    exists (n1 ++ n2). split; [now rewrite Ht2, Ht1, app_assoc|].
    rewrite llamadas_app, map_app. now apply (creciente_app lo mid hi).
  - exists n1. split; [exact Ht1|]. now apply (creciente_hasta lo mid hi).
Qed.

Lemma en_orden_try (lo mid hi : nat) (m : M A) (h : exn -> option (M A)) :
  (mid <= hi)%nat ->
  en_orden lo mid m -> (forall e k, h e = Some k -> en_orden mid hi k) ->
  en_orden lo hi (try_except m h).
Proof.
  intros Hmid Hm Hh w. unfold try_except.
  destruct (Hm w) as (n1 & Ht1 & Hf1).
  destruct (m w) as [[a|e] w1]; cbn [fst snd] in *.
  - exists n1. split; [exact Ht1|]. now apply (creciente_hasta lo mid hi).
  - destruct (h e) as [k|] eqn:He.
    + destruct (Hh e k He w1) as (n2 & Ht2 & Hf2).
      exists (n1 ++ n2). split; [now rewrite Ht2, Ht1, app_assoc|].
      rewrite llamadas_app, map_app. now apply (creciente_app lo mid hi).
    + exists n1. split; [exact Ht1|]. now apply (creciente_hasta lo mid hi).
Qed.

Lemma en_orden_silencio (lo hi : nat) (m : M A) :
  (lo <= hi)%nat ->
  (forall w, exists t, traza (m w).2 = traza w ++ t /\ llamadas t = []) ->
  en_orden lo hi m.
Proof.
  intros Hlo H w. destruct (H w) as (t & Ht & Hl). exists t. split; [exact Ht|].
  rewrite Hl. exact Hlo.
Qed.

Lemma en_orden_ret (lo hi : nat) (a : A) : (lo <= hi)%nat -> en_orden lo hi (mret a : M A).
Proof.
  intros H. apply en_orden_silencio; [exact H|].
  intros w. exists []. split; [simpl; now rewrite app_nil_r|reflexivity].
Qed.

Lemma en_orden_raise (lo hi : nat) (e : exn) : (lo <= hi)%nat -> en_orden lo hi (raise e : M A).
Proof.
  intros H. apply en_orden_silencio; [exact H|].
  intros w. exists []. split; [simpl; now rewrite app_nil_r|reflexivity].
Qed.

End EnOrden.

Lemma en_orden_print (lo hi : nat) (t : string) : (lo <= hi)%nat -> en_orden lo hi (print t).
Proof.
  intros H. apply en_orden_silencio; [exact H|].
  intros w. exists [Print stdout t]. split; reflexivity.
Qed.

Lemma en_orden_eprint (lo hi : nat) (t : string) : (lo <= hi)%nat -> en_orden lo hi (eprint t).
Proof.
  intros H. apply en_orden_silencio; [exact H|].
  intros w. exists [Print stderr t]. split; reflexivity.
Qed.

Lemma en_orden_item (lo hi : nat) (d : gmap string value) (k : string) :
  (lo <= hi)%nat -> en_orden lo hi (item d k).
Proof.
  intros H. unfold item. destruct (d !! k); [now apply en_orden_ret|now apply en_orden_raise].
Qed.

Lemma en_orden_guardar (lo hi : nat) (k v : string) :
  (lo <= hi)%nat -> en_orden lo hi (guardar k v).
Proof.
  intros H. apply en_orden_silencio; [exact H|].
  intros w. exists []. split; [simpl; now rewrite app_nil_r|reflexivity].
Qed.

Lemma en_orden_recursos_vacios (lo hi : nat) : (lo <= hi)%nat -> en_orden lo hi recursos_vacios.
Proof.
  intros H. apply en_orden_silencio; [exact H|].
  intros w. exists []. split; [simpl; now rewrite app_nil_r|reflexivity].
Qed.

Lemma en_orden_recursos_items (lo hi : nat) : (lo <= hi)%nat -> en_orden lo hi recursos_items.
Proof.
  intros H. apply en_orden_silencio; [exact H|].
  intros w. exists []. split; [simpl; now rewrite app_nil_r|reflexivity].
Qed.

Lemma en_orden_llamar (lo hi : nat) (s : sistema) (c : llamada) :
  (lo <= rango c < hi)%nat -> en_orden lo hi (llamar s c).
Proof.
  intros H w. exists [Call c]. split; [reflexivity|]. cbn. lia.
Qed.

Lemma en_orden_para_cada {A : Type} (lo : nat) (l : list A) (f : A -> M unit) :
  (forall x, en_orden lo lo (f x)) -> en_orden lo lo (para_cada l f).
Proof.
  intros Hf. induction l as [|x l IH]; cbn [para_cada].
  - now apply en_orden_ret.
  - apply (en_orden_bind lo lo lo); [lia|apply Hf|intros _; exact IH].
Qed.

Lemma en_orden_debil {A : Type} (lo lo' hi hi' : nat) (m : M A) :
  (lo' <= lo)%nat -> (hi <= hi')%nat -> en_orden lo hi m -> en_orden lo' hi' m.
Proof.
  intros Hlo Hhi Hm w. destruct (Hm w) as (t & Ht & Hc). exists t. split; [exact Ht|].
  apply (creciente_desde lo), (creciente_hasta lo hi); assumption.
Qed.

(** A program that makes no call, taken apart. *)
Ltac callado :=
  repeat first
    [ apply en_orden_ret; lia | apply en_orden_raise; lia
    | apply en_orden_print; lia | apply en_orden_eprint; lia
    | apply en_orden_item; lia | apply en_orden_guardar; lia
    | apply en_orden_recursos_vacios; lia | apply en_orden_recursos_items; lia
    | apply en_orden_para_cada; intros ?
    | match goal with
      | |- en_orden ?lo _ (_ ≫= _) => apply (en_orden_bind lo lo); [lia| |intros ?]
      | |- en_orden _ _ (if ?b then _ else _) => destruct b
      | |- en_orden _ _ (match ?r with _ => _ end) => destruct r
      end ].

(** A program taken apart call by call: a call moves the lower place
    past its own; a step already placed moves it to its upper place;
    anything else is expected to make no call. *)
Ltac colocar :=
  repeat first
    [ match goal with
      | |- en_orden ?lo ?hi (llamar _ ?c ≫= _) =>
          let r := eval cbn in (rango c) in
          apply (en_orden_bind lo (S r) hi); [lia|apply en_orden_llamar; cbn; lia|intros ?]
      | |- en_orden ?lo ?hi (llamar _ ?c) => apply en_orden_llamar; cbn; lia
      | H : en_orden ?a ?b ?m |- en_orden ?lo ?hi (?m ≫= _) =>
          apply (en_orden_bind lo b hi);
          [lia|apply (en_orden_debil a lo b b); [lia|lia|exact H]|intros ?]
      | H : en_orden ?a ?b ?m |- en_orden ?lo ?hi ?m =>
          apply (en_orden_debil a lo b hi); [lia|lia|exact H]
      | |- en_orden _ _ ((if ?b then _ else _) ≫= _) => destruct b
      | |- en_orden _ _ ((match ?r with _ => _ end) ≫= _) => destruct r
      | |- en_orden _ _ (if ?b then _ else _) => destruct b
      | |- en_orden _ _ (match ?r with _ => _ end) => destruct r
      | |- en_orden ?lo ?hi (_ ≫= _) =>
          apply (en_orden_bind lo lo hi); [lia|solve [callado]|intros ?]
      end
    | solve [callado] ].

Lemma en_orden_crear_security_group s self : en_orden 4 7 (crear_security_group s self).
Proof.
  unfold crear_security_group, peticion_security_group. colocar.
  apply (en_orden_try 4 6 7); [lia| |].
  - unfold get_GroupId. colocar.
  - intros e k H. destruct e; simplify_eq. unfold get_first_SecurityGroup. colocar.
Qed.

Lemma en_orden_crear_bucket_s3_backup s self : en_orden 7 12 (crear_bucket_s3_backup s self).
Proof.
  unfold crear_bucket_s3_backup, peticion_tagging. colocar.
  apply (en_orden_bind 7 12 12); [lia| |intros ?; callado].
  apply (en_orden_try 7 12 12); [lia| |].
  - colocar.
  - intros e k H. destruct e; simplify_eq. colocar.
Qed.

Lemma en_orden_crear_instancia_ec2 s self sg_id :
  en_orden 12 14 (crear_instancia_ec2 s self sg_id).
Proof.
  unfold crear_instancia_ec2, peticion_instancia.
  apply (en_orden_try 12 14 14); [lia| |].
  - unfold get_first_Instance. colocar.
  - intros e k H. destruct e; simplify_eq. colocar.
Qed.

Lemma en_orden_crear_base_datos_rds s self : en_orden 14 15 (crear_base_datos_rds s self).
Proof.
  unfold crear_base_datos_rds, peticion_base_datos. colocar.
  apply (en_orden_bind 14 15 15); [lia| |intros ?; callado].
  apply (en_orden_try 14 15 15); [lia| |].
  - colocar.
  - intros e k H. destruct e; simplify_eq. colocar.
Qed.

Lemma en_orden_desplegar s self : en_orden 4 15 (desplegar s self).
Proof.
  pose proof (en_orden_crear_security_group s self) as H1.
  pose proof (en_orden_crear_bucket_s3_backup s self) as H2.
  pose proof (en_orden_crear_instancia_ec2 s self) as H3.
  pose proof (en_orden_crear_base_datos_rds s self) as H4.
  unfold desplegar, desplegar_cabecera.
  apply (en_orden_bind 4 4 15); [lia|callado|intros _].
  apply (en_orden_try 4 15 15); [lia| |].
  - unfold desplegar_try, paso_1, paso_2, paso_3, paso_4, resumen.
    apply (en_orden_bind 4 7 15); [lia| |intros sg_id].
    { apply (en_orden_bind 4 4 7); [lia|callado|intros _].
      apply (en_orden_bind 4 7 7); [lia|exact H1|intros ?; callado]. }
    apply (en_orden_bind 7 12 15); [lia| |intros _].
    { apply (en_orden_bind 7 7 12); [lia|callado|intros _].
      apply (en_orden_bind 7 12 12); [lia|exact H2|intros ?; callado]. }
    apply (en_orden_bind 12 14 15); [lia| |intros _].
    { apply (en_orden_bind 12 12 14); [lia|callado|intros _].
      apply (en_orden_bind 12 14 14); [lia|apply H3|intros ?; callado]. }
    apply (en_orden_bind 14 15 15); [lia| |intros _; callado].
    apply (en_orden_bind 14 14 15); [lia|callado|intros _].
    apply (en_orden_bind 14 15 15); [lia|exact H4|intros ?; callado].
  - intros e k H. destruct (es_Exception e); simplify_eq. unfold desplegar_except. callado.
Qed.

Lemma en_orden_init s config_arg : en_orden 0 4 (__init__ s config_arg).
Proof.
  unfold __init__.
  apply (en_orden_bind 0 0 4); [lia| |intros cfg].
  { unfold _cargar_configuracion. destruct (hay_archivo s config_arg); [|callado].
    apply (en_orden_try 0 0 0); [lia| |].
    - unfold json_load, dict_update. callado.
    - intros e k H. destruct e; simplify_eq. callado. }
  apply (en_orden_bind 0 0 4); [lia| |intros _].
  { unfold _validar_variables_entorno. callado. }
  colocar.
Qed.

Lemma en_orden_main s config_arg : en_orden 0 15 (main s config_arg).
Proof.
  unfold main, main_try.
  apply (en_orden_try 0 15 15); [lia| |].
  - apply (en_orden_bind 0 4 15); [lia|apply en_orden_init|intros self].
    apply en_orden_desplegar.
  - intros e k H. destruct e; simplify_eq; callado.
Qed.

(** X17.  One pass, in one order.  In every run of the process the
    calls follow the order of the script: the four clients; creation of
    the rule set, attachment of its rules, lookup; the bucket and its
    four settings; launch and wait; the database.  The places increase
    strictly along the trace, so that no call is made a second time:
    nothing is retried, whatever the provider answers. *)
Theorem proceso_sin_reintentos (s : sistema) (config_arg : option string) :
  StronglySorted lt (map rango (llamadas (traza (proceso s config_arg).2))) /\
  NoDup (map rango (llamadas (traza (proceso s config_arg).2))) /\
  (length (llamadas (traza (proceso s config_arg).2)) <= 15)%nat.
Proof.
  destruct (en_orden_main s config_arg mundo_inicial) as (t & Ht & Hc).
  unfold proceso. destruct (main s config_arg mundo_inicial) as [r w1].
  cbn [fst snd traza mundo_inicial app] in *. rewrite Ht.
  destruct (creciente_sorted _ _ _ Hc) as [Hs Hf].
  split; [exact Hs|].
  assert (Hnd : NoDup (map rango (llamadas t))).
  { clear -Hs. induction Hs as [|x l Hs IH Hx]; constructor; [|exact IH].
    intros Hin. rewrite Forall_forall in Hx. apply Hx in Hin. lia. }
  split; [exact Hnd|].
  rewrite <- (length_map rango).
  assert (Hsub : map rango (llamadas t) ⊆ seq 0 15).
  { intros x Hx. rewrite Forall_forall in Hf. apply Hf in Hx.
    apply list_elem_of_In, in_seq. lia. }
  apply NoDup_submseteq in Hsub; [|exact Hnd].
  apply submseteq_length in Hsub. now rewrite length_seq in Hsub.
Qed.
